(** * Prepaid-meter ledger: transactions, balance and consumption

    A shallow embedding of the ledger logic of the token-loading backend:

    - [transactions.js]: [calculateUnits], [createTransactionForMeter],
      [transactionExists], [findTransactionByReference],
      [calculateAvailableUnits], [saveCallbackTransaction];
    - [unit-consumption.js]: the [UnitConsumptionService] tick;
    - [services/meterService.js]: [round4], [processPayment], [consumeUnits].

    Modelling conventions.

    - JavaScript numbers are exact rationals ([Q]).  Rounding steps the code
      writes out ([toFixed(2)], [Math.round]) are modelled exactly; the
      binary rounding of IEEE-754 arithmetic, NaN and the infinities are not.
      A numeric conversion that yields NaN or an infinity is [None].
    - The Realtime Database is a record of collections.  A collection fed by
      [push()] is a list in creation order and the key of a child is its
      position; [meters] is keyed by the meter number.  Nothing is ever
      deleted, so positions are stable keys.
    - An [async] function is run to completion: a call is a function from
      the store to the new store and the returned value.  A thrown error is
      a result of its own.
    - The clock, [Date] parsing and the string case of [parseFloat] belong
      to the JavaScript runtime and are inputs ([runtime]). *)

From Stdlib Require Import ZArith QArith Qround Qminmax Qabs Lqa Lia Bool.
From stdpp Require Import base option list strings gmap.

Local Open Scope Q_scope.

(** ** JavaScript values *)

Module JS.

(** The scalar JSON values a request body or a database child can hold.
    [JUndef] is the value of a property that is not there. *)
Inductive jsval : Type :=
| JUndef
| JNull
| JBool (b : bool)
| JNum (q : Q)
| JStr (s : string).

(** ToBoolean. *)
Definition truthy (v : jsval) : bool :=
  match v with
  | JUndef | JNull => false
  | JBool b => b
  | JNum q => negb (Qeq_bool q 0)
  | JStr s => negb (String.eqb s "")
  end.

(** [a || b]. *)
Definition js_or (a b : jsval) : jsval := if truthy a then a else b.

(** [a === b] on scalars; also the comparison of an [equalTo] query,
    which matches a child of the same type and value. *)
Definition strict_eq (a b : jsval) : bool :=
  match a, b with
  | JUndef, JUndef => true
  | JNull, JNull => true
  | JBool x, JBool y => Bool.eqb x y
  | JNum x, JNum y => Qeq_bool x y
  | JStr x, JStr y => String.eqb x y
  | _, _ => false
  end.

(** A JSON object, read by property name. *)
Abbreviation object := (gmap string jsval).

Definition get (o : object) (k : string) : jsval := default JUndef (o !! k).

(** [String.prototype.toLowerCase] on ASCII letters. *)
Definition lower_ascii (c : Ascii.ascii) : Ascii.ascii :=
  let n := Ascii.nat_of_ascii c in
  if (65 <=? n)%nat && (n <=? 90)%nat then Ascii.ascii_of_nat (n + 32) else c.

Fixpoint toLowerCase (s : string) : string :=
  match s with
  | EmptyString => EmptyString
  | String c r => String (lower_ascii c) (toLowerCase r)
  end.

(** [Math.round]: the nearest integer, a tie going up. *)
Definition Math_round (x : Q) : Z := Qfloor (x + (1 # 2)).

(** [parseFloat(x.toFixed(2))]: [toFixed] takes the integer [n] with
    [n / 100] nearest to [|x|], the larger one on a tie, and keeps the
    sign.  (From 1e21 on [toFixed] prints the number itself; a double that
    large is an integer, on which this function is the identity too.) *)
Definition toFixed2 (x : Q) : Q :=
  if Qle_bool 0 x then Qfloor (x * 100 + (1 # 2)) # 100
  else - (Qfloor ((- x) * 100 + (1 # 2)) # 100).

(** Truncation toward zero and the [%] operator. *)
Definition trunc (x : Q) : Z := if Qle_bool 0 x then Qfloor x else Qceiling x.

Definition rem (a b : Q) : Q := a - b * inject_Z (trunc (a / b)).

(** What the code asks of the runtime. *)
Record runtime : Type := {
  (** [new Date().toISOString()] *)
  now : string;
  (** [Date.now()] *)
  now_ms : Z;
  (** [new Date(v).toISOString()]; [None] when it throws (invalid date). *)
  Date_toISOString : jsval -> option string;
  (** [parseFloat(s)] on a string; [None] for NaN and the infinities. *)
  parseFloat_string : string -> option Q;
  (** [parseFloat(process.env.UNITS_PER_KES || '0.05')] *)
  UNITS_PER_KES : Q;
  (** [Math.floor(10000000 + Math.random() * 90000000).toString()] *)
  random_token : string
}.

(** [parseFloat(v)]: a number prints and parses back to itself; the other
    scalars print as [undefined], [null], [true], [false]. *)
Definition parseFloat (rt : runtime) (v : jsval) : option Q :=
  match v with
  | JNum q => Some q
  | JStr s => parseFloat_string rt s
  | JUndef | JNull | JBool _ => None
  end.

End JS.

Import JS.

(** ** The database *)

Module Db.

(** [users/<id>]: the fields the ledger code reads or writes (a user also
    has a name, an email and a phone number, which it never touches). *)
Record user : Type := {
  u_meter_no : option string;
  u_balance : option Q;
  u_latest_transaction_id : option nat;
  u_last_payment_timestamp : option string;
  u_last_payment_amount : option jsval;
  u_last_units_purchased : option Q;
  u_current_units : option Q;
  u_last_consumption_timestamp : option string;
  u_last_consumption_amount : option Q
}.

(** [transactions/<id>].  A field a writer leaves out is [None] or
    [JUndef]. *)
Record transaction : Type := {
  t_transaction_id : option nat;
  t_user_id : nat;
  t_meter_no : jsval;
  t_amount : Q;
  t_units : option Q;
  t_remainder : option Q;
  t_status : string;
  t_timestamp : jsval;
  t_reference : jsval;
  t_mpesa_receipt : jsval;
  t_phone_number : jsval;
  t_result_code : jsval;
  t_result_desc : jsval;
  t_raw_callback : option object;
  t_token : option string
}.

(** [unit_consumption/<id>], written by the simulator tick and by the
    device path. *)
Record consumption : Type := {
  c_consumption_id : option nat;
  c_user_id : option nat;
  c_meter_no : option string;
  c_units_consumed : Q;
  c_units_before : Q;
  c_units_after : Q;
  c_consumption_rate : option Q;
  c_timestamp : jsval;
  c_type : option string
}.

(** [meters/<meterNo>]. *)
Record meter : Type := {
  m_user_id : option nat;
  m_balance : option Q
}.

Record store : Type := {
  users : list user;
  transactions : list transaction;
  unit_consumption : list consumption;
  meters : gmap string meter
}.

Definition set_users (f : list user -> list user) (s : store) : store :=
  {| users := f (users s); transactions := transactions s;
     unit_consumption := unit_consumption s; meters := meters s |}.

Definition set_transactions (f : list transaction -> list transaction)
    (s : store) : store :=
  {| users := users s; transactions := f (transactions s);
     unit_consumption := unit_consumption s; meters := meters s |}.

Definition set_unit_consumption (f : list consumption -> list consumption)
    (s : store) : store :=
  {| users := users s; transactions := transactions s;
     unit_consumption := f (unit_consumption s); meters := meters s |}.

Definition set_meters (f : gmap string meter -> gmap string meter)
    (s : store) : store :=
  {| users := users s; transactions := transactions s;
     unit_consumption := unit_consumption s; meters := f (meters s) |}.

(** [ref.update({...})] on [users/<id>]: the fields given are overwritten
    on the child at that key. *)
Definition update_user (id : nat) (f : user -> user) (s : store) : store :=
  set_users (alter f id) s.

(** [orderByChild(field).equalTo(q)]: the children whose field has the type
    and value of [q].  A [null] query matches the children without the
    field; an [undefined] one is refused by the client, which every caller
    here treats like an empty answer. *)
Definition equalTo (q v : jsval) : bool :=
  match q with
  | JUndef => false
  | JNull => match v with JUndef | JNull => true | _ => false end
  | _ => strict_eq q v
  end.

(** The first child of an ordered query answer, with its key
    ([Object.keys(snapshot.val())[0]]). *)
Definition first_child {A : Type} (p : A -> bool) (l : list A) : option (nat * A) :=
  list_find (fun x => Is_true (p x)) l.

End Db.

Import Db.

(** ** transactions.js *)

Module Transactions.

(** The errors the functions throw. *)
Inductive error : Type :=
| MissingBillRef          (* BillRefNumber (meter_no) is required ... *)
| NoUserFound (meterNo : jsval)  (* No user found with meter_no: ... *)
| WriteRejected.          (* the database client refuses NaN in a write *)

(** [findUserIdByMeter]: the first user whose [meter_no] is [meterNo]. *)
Definition findUserIdByMeter (s : store) (meterNo : jsval) : option nat :=
  fst <$> first_child
    (fun u => equalTo meterNo (from_option JStr JUndef (u_meter_no u))) (users s).

(** [calculateUnits]: one unit is KSH 25. *)
Definition calculateUnits (rt : runtime) (amount : jsval) : option Q :=
  a ← parseFloat rt amount; Some (toFixed2 (a / 25)).

(** [transactionExists]. *)
Definition transactionExists (s : store) (mpesaReceiptNumber : jsval) : bool :=
  if negb (truthy mpesaReceiptNumber) then false
  else existsb (fun t => equalTo mpesaReceiptNumber (t_mpesa_receipt t))
         (transactions s).

(** [findTransactionByReference]: the key and the record. *)
Definition findTransactionByReference (s : store) (reference : jsval)
    : option (nat * transaction) :=
  if negb (truthy reference) then None
  else first_child (fun t => equalTo reference (t_reference t)) (transactions s).

(** The status test both balance functions apply. *)
Definition counts_as_purchase (t : transaction) : bool :=
  String.eqb (t_status t) "SUCCESS" || String.eqb (t_status t) "completed".

Definition totalPurchasedUnits (s : store) (userId : nat) : Q :=
  fold_left
    (fun total t =>
       if counts_as_purchase t then total + default 0 (t_units t) else total)
    (filter (fun t => t_user_id t = userId) (transactions s)) 0.

Definition totalConsumedUnits (s : store) (userId : nat) : Q :=
  fold_left (fun total c => total + c_units_consumed c)
    (filter (fun c => c_user_id c = Some userId) (unit_consumption s)) 0.

(** [calculateAvailableUnits]: purchased minus consumed. *)
Definition calculateAvailableUnits (s : store) (userId : nat) : Q :=
  toFixed2 (Qmax 0 (totalPurchasedUnits s userId - totalConsumedUnits s userId)).

(** [createTransactionForMeter]; the returned transaction, or the error
    thrown.  ([reference = null] in the parameter list: a reference that is
    not passed is [null].) *)
Definition createTransactionForMeter (rt : runtime) (meterNo amount : jsval)
    (status : string) (reference : jsval) (s : store)
    : store * (error + transaction) :=
  let reference := match reference with JUndef => JNull | r => r end in
  match findUserIdByMeter s meterNo with
  | None => (s, inl (NoUserFound meterNo))
  | Some userId =>
    match calculateUnits rt amount, parseFloat rt amount with
    | Some units, Some a =>
      let remainder := rem a 25 in
      let transactionId := length (transactions s) in
      let transaction :=
        {| t_transaction_id := Some transactionId;
           t_user_id := userId;
           t_meter_no := meterNo;
           t_amount := a;
           t_units := Some units;
           t_remainder := Some remainder;
           t_status := status;
           t_timestamp := JStr (now rt);
           t_reference := reference;
           t_mpesa_receipt := JUndef;
           t_phone_number := JUndef;
           t_result_code := JUndef;
           t_result_desc := JUndef;
           t_raw_callback := None;
           t_token := None |} in
      let s1 := set_transactions (fun l => l ++ [transaction]) s in
      if String.eqb status "SUCCESS" then
        let s2 :=
          update_user userId (fun u =>
            {| u_meter_no := u_meter_no u;
               u_balance := u_balance u;
               u_latest_transaction_id := Some transactionId;
               u_last_payment_timestamp := Some (now rt);
               u_last_payment_amount := Some amount;
               u_last_units_purchased := Some units;
               u_current_units := u_current_units u;
               u_last_consumption_timestamp := u_last_consumption_timestamp u;
               u_last_consumption_amount := u_last_consumption_amount u |}) s1 in
        let availableUnits := calculateAvailableUnits s2 userId in
        let s3 :=
          update_user userId (fun u =>
            {| u_meter_no := u_meter_no u;
               u_balance := Some availableUnits;
               u_latest_transaction_id := u_latest_transaction_id u;
               u_last_payment_timestamp := u_last_payment_timestamp u;
               u_last_payment_amount := u_last_payment_amount u;
               u_last_units_purchased := u_last_units_purchased u;
               u_current_units := u_current_units u;
               u_last_consumption_timestamp := u_last_consumption_timestamp u;
               u_last_consumption_amount := u_last_consumption_amount u |}) s2 in
        (s3, inr transaction)
      else (s1, inr transaction)
    | _, _ => (s, inl WriteRejected)
    end
  end.

(** The text of the [message] field. *)
Inductive message : Type :=
| AlreadyProcessed                 (* Transaction already processed *)
| Processed (status : string)      (* Transaction <status> processed successfully *)
| ErrorMessage (e : error).        (* error.message *)

(** The object [saveCallbackTransaction] returns; [transaction_id] is
    [None] for [null], [status] is [None] where the object has no such
    property. *)
Record result : Type := {
  success : bool;
  duplicate : bool;
  message_of : message;
  transaction_id : option nat;
  status : option string
}.

Definition failure (e : error) : result :=
  {| success := false; duplicate := false; message_of := ErrorMessage e;
     transaction_id := None; status := None |}.

(** The fields read from the payload, each under its aliases. *)
Definition resultCode_of (callbackData : object) : jsval :=
  js_or (js_or (get callbackData "ResultCode") (get callbackData "resultCode"))
        (JNum 1).

Definition resultDesc_of (callbackData : object) : jsval :=
  js_or (js_or (get callbackData "ResultDesc") (get callbackData "resultDesc"))
     (JStr "Unknown result").

Definition mpesaReceiptNumber_of (callbackData : object) : jsval :=
  js_or (js_or (get callbackData "MpesaReceiptNumber")
         (get callbackData "mpesaReceiptNumber"))
     (get callbackData "TransactionID").

Definition amount_of (rt : runtime) (callbackData : object) : option Q :=
  parseFloat rt
    (js_or (js_or (js_or (get callbackData "Amount") (get callbackData "amount"))
            (get callbackData "TransAmount"))
        (JNum 0)).

Definition transactionDate_of (rt : runtime) (callbackData : object) : jsval :=
  js_or (js_or (get callbackData "TransactionDate")
               (get callbackData "transactionDate"))
        (JStr (now rt)).

Definition billRefNumber_of (callbackData : object) : jsval :=
  js_or (js_or (get callbackData "BillRefNumber") (get callbackData "billRefNumber"))
     (get callbackData "AccountReference").

Definition phoneNumber_of (callbackData : object) : jsval :=
  js_or (js_or (get callbackData "PhoneNumber") (get callbackData "phoneNumber"))
     (get callbackData "MSISDN").

Definition conversationId_of (callbackData : object) : jsval :=
  js_or (get callbackData "OriginatorCoversationID")
     (get callbackData "originatorCoversationID").

(** [resultCode === 0 ? 'SUCCESS' : 'FAILED']. *)
Definition status_of (resultCode : jsval) : string :=
  if strict_eq resultCode (JNum 0) then "SUCCESS" else "FAILED".

(** The timestamp: a 14-character date is [YYYYMMDDHHMMSS]; what [Date]
    refuses falls back to the current time.  ([length] counts bytes, which
    for the digits of a date are the characters.) *)
Definition formattedTimestamp_of (rt : runtime) (transactionDate : jsval) : string :=
  let parsed :=
    match transactionDate with
    | JStr d =>
      if truthy transactionDate && (String.length d =? 14)%nat then
        Date_toISOString rt
          (JStr (String.substring 0 4 d ++ "-" ++ String.substring 4 2 d ++ "-"
                 ++ String.substring 6 2 d ++ "T" ++ String.substring 8 2 d ++ ":"
                 ++ String.substring 10 2 d ++ ":" ++ String.substring 12 2 d
                 ++ "Z"))
      else Date_toISOString rt transactionDate
    | _ => Date_toISOString rt transactionDate
    end in
  default (now rt) parsed.

(** The fields a callback overwrites on the transaction it matched. *)
Definition apply_callback (status : string)
    (mpesaReceiptNumber phoneNumber resultCode resultDesc : jsval)
    (formattedTimestamp : string) (callbackData : object)
    (t : transaction) : transaction :=
  {| t_transaction_id := t_transaction_id t;
     t_user_id := t_user_id t;
     t_meter_no := t_meter_no t;
     t_amount := t_amount t;
     t_units := t_units t;
     t_remainder := t_remainder t;
     t_status := status;
     t_timestamp := JStr formattedTimestamp;
     t_reference := t_reference t;
     t_mpesa_receipt := js_or mpesaReceiptNumber JNull;
     t_phone_number := js_or phoneNumber JNull;
     t_result_code := resultCode;
     t_result_desc := resultDesc;
     t_raw_callback := Some callbackData;
     t_token := t_token t |}.

(** The user update after a successful callback, followed by the balance
    recomputation. *)
Definition record_payment (userId transactionId : nat) (formattedTimestamp : string)
    (amount : Q) (s : store) : store :=
  let s1 :=
    update_user userId (fun u =>
      {| u_meter_no := u_meter_no u;
         u_balance := u_balance u;
         u_latest_transaction_id := Some transactionId;
         u_last_payment_timestamp := Some formattedTimestamp;
         u_last_payment_amount := Some (JNum amount);
         u_last_units_purchased := u_last_units_purchased u;
         u_current_units := u_current_units u;
         u_last_consumption_timestamp := u_last_consumption_timestamp u;
         u_last_consumption_amount := u_last_consumption_amount u |}) s in
  let availableUnits := calculateAvailableUnits s1 userId in
  update_user userId (fun u =>
    {| u_meter_no := u_meter_no u;
       u_balance := Some availableUnits;
       u_latest_transaction_id := u_latest_transaction_id u;
       u_last_payment_timestamp := u_last_payment_timestamp u;
       u_last_payment_amount := u_last_payment_amount u;
       u_last_units_purchased := u_last_units_purchased u;
       u_current_units := u_current_units u;
       u_last_consumption_timestamp := u_last_consumption_timestamp u;
       u_last_consumption_amount := u_last_consumption_amount u |}) s1.

(** [saveCallbackTransaction]. *)
Definition saveCallbackTransaction (rt : runtime) (callbackData : object)
    (s : store) : store * result :=
  let resultCode := resultCode_of callbackData in
  let resultDesc := resultDesc_of callbackData in
  let mpesaReceiptNumber := mpesaReceiptNumber_of callbackData in
  let amount := amount_of rt callbackData in
  let transactionDate := transactionDate_of rt callbackData in
  let billRefNumber := billRefNumber_of callbackData in
  let phoneNumber := phoneNumber_of callbackData in
  if negb (truthy billRefNumber) then (s, failure MissingBillRef)
  else if truthy mpesaReceiptNumber && transactionExists s mpesaReceiptNumber then
    (s, {| success := true; duplicate := true; message_of := AlreadyProcessed;
           transaction_id := None; status := None |})
  else
    let conversationId := conversationId_of callbackData in
    let existingTransaction :=
      if truthy conversationId then findTransactionByReference s conversationId
      else None in
    match findUserIdByMeter s billRefNumber with
    | None => (s, failure (NoUserFound billRefNumber))
    | Some userId =>
      let status := status_of resultCode in
      let formattedTimestamp := formattedTimestamp_of rt transactionDate in
      let written : option (store * nat) :=
        match existingTransaction with
        | Some (id, _) =>
          Some (set_transactions
                  (alter (apply_callback status mpesaReceiptNumber phoneNumber
                            resultCode resultDesc formattedTimestamp callbackData)
                         id) s,
                id)
        | None =>
          match amount with
          | None => None
          | Some a =>
            let transactionId := length (transactions s) in
            let transaction :=
              {| t_transaction_id := Some transactionId;
                 t_user_id := userId;
                 t_meter_no := billRefNumber;
                 t_amount := a;
                 t_units := None;
                 t_remainder := None;
                 t_status := status;
                 t_timestamp := JStr formattedTimestamp;
                 t_reference := JUndef;
                 t_mpesa_receipt := js_or mpesaReceiptNumber JNull;
                 t_phone_number := js_or phoneNumber JNull;
                 t_result_code := resultCode;
                 t_result_desc := resultDesc;
                 t_raw_callback := Some callbackData;
                 t_token := None |} in
            Some (set_transactions (fun l => l ++ [transaction]) s, transactionId)
          end
        end in
      match written with
      | None => (s, failure WriteRejected)
      | Some (s1, transactionId) =>
        let ok :=
          {| success := true; duplicate := false;
             message_of := Processed (toLowerCase status);
             transaction_id := Some transactionId; status := Some status |} in
        if String.eqb status "SUCCESS" then
          match amount with
          | None => (s1, failure WriteRejected)
          | Some a =>
            (record_payment userId transactionId formattedTimestamp a s1, ok)
          end
        else (s1, ok)
      end
    end.

End Transactions.

(** ** unit-consumption.js *)

Module UnitConsumptionService.

(** [this.consumptionRate]: units consumed every cycle. *)
Definition consumptionRate : Q := 0.1.

(** [calculateAvailableUnits] of the service: the two loops of
    [Transactions.calculateAvailableUnits], without the final rounding. *)
Definition calculateAvailableUnits (s : store) (userId : nat) : Q :=
  Qmax 0 (Transactions.totalPurchasedUnits s userId
          - Transactions.totalConsumedUnits s userId).

(** [recordUnitConsumption]. *)
Definition recordUnitConsumption (rt : runtime) (userId : nat)
    (unitsConsumed unitsBefore unitsAfter : Q) (s : store) : store :=
  let consumptionId := length (unit_consumption s) in
  let consumptionRecord :=
    {| c_consumption_id := Some consumptionId;
       c_user_id := Some userId;
       c_meter_no := None;
       c_units_consumed := toFixed2 unitsConsumed;
       c_units_before := toFixed2 unitsBefore;
       c_units_after := toFixed2 unitsAfter;
       c_consumption_rate := Some consumptionRate;
       c_timestamp := JStr (now rt);
       c_type := Some "automatic_consumption" |} in
  let s1 := set_unit_consumption (fun l => l ++ [consumptionRecord]) s in
  update_user userId (fun u =>
    {| u_meter_no := u_meter_no u;
       u_balance := u_balance u;
       u_latest_transaction_id := u_latest_transaction_id u;
       u_last_payment_timestamp := u_last_payment_timestamp u;
       u_last_payment_amount := u_last_payment_amount u;
       u_last_units_purchased := u_last_units_purchased u;
       u_current_units := Some (toFixed2 unitsAfter);
       u_last_consumption_timestamp := Some (now rt);
       u_last_consumption_amount := Some (toFixed2 unitsConsumed) |}) s1.

(** [consumeUnitsForUser]. *)
Definition consumeUnitsForUser (rt : runtime) (userId : nat) (s : store) : store :=
  let availableUnits := calculateAvailableUnits s userId in
  if Qle_bool availableUnits 0 then s
  else
    let unitsToConsume := Qmin consumptionRate availableUnits in
    let newAvailableUnits := Qmax 0 (availableUnits - unitsToConsume) in
    recordUnitConsumption rt userId unitsToConsume availableUnits
      newAvailableUnits s.

(** The loop of [consumeUnitsForAllUsers] over the entries of the users read
    at the start of the tick. *)
Definition consumeUnitsForEach (rt : runtime) (userIds : list nat) (s : store)
    : store :=
  fold_left (fun s' userId => consumeUnitsForUser rt userId s') userIds s.

(** [consumeUnitsForAllUsers]: one tick. *)
Definition consumeUnitsForAllUsers (rt : runtime) (s : store) : store :=
  consumeUnitsForEach rt (seq 0 (length (users s))) s.

End UnitConsumptionService.

(** ** services/meterService.js *)

Module MeterService.

Definition round4 (x : Q) : Q := inject_Z (Math_round (x * 10000)) / 10000.

(** [Number(v) || 0] on a balance child. *)
Definition balance_or_0 (b : option Q) : Q := default 0 b.

(** A write under [meters/<meterNo>/balance] creates the meter when it is
    not there. *)
Definition set_meter_balance (meterNo : string) (b : Q) (s : store) : store :=
  set_meters (fun m =>
    <[meterNo := {| m_user_id := m !! meterNo ≫= m_user_id;
                    m_balance := Some b |}]> m) s.

(** [users/<id>/balance] is set on the user at that key.  (For a key no
    user has, the database would grow a node holding the balance alone;
    the keys here are positions, and the list is left as it is.) *)
Definition set_user_balance (userId : nat) (b : Q) (s : store) : store :=
  update_user userId (fun u =>
    {| u_meter_no := u_meter_no u;
       u_balance := Some b;
       u_latest_transaction_id := u_latest_transaction_id u;
       u_last_payment_timestamp := u_last_payment_timestamp u;
       u_last_payment_amount := u_last_payment_amount u;
       u_last_units_purchased := u_last_units_purchased u;
       u_current_units := u_current_units u;
       u_last_consumption_timestamp := u_last_consumption_timestamp u;
       u_last_consumption_amount := u_last_consumption_amount u |}) s.

(** What [processPayment] returns. *)
Record payment : Type := {
  p_newBalance : Q;
  p_units : Q;
  p_token : string
}.

(** [processPayment]. *)
Definition processPayment (rt : runtime) (userId : nat) (meterNo : string)
    (amount : Q) (reference : jsval) (s : store) : store * payment :=
  let units := round4 (amount * UNITS_PER_KES rt) in
  let current := balance_or_0 (meters s !! meterNo ≫= m_balance) in
  let newBalance := round4 (current + units) in
  let s1 := set_meter_balance meterNo newBalance s in
  let s2 := set_user_balance userId newBalance s1 in
  let token := random_token rt in
  let txData :=
    {| t_transaction_id := None;
       t_user_id := userId;
       t_meter_no := JStr meterNo;
       t_amount := amount;
       t_units := Some units;
       t_remainder := None;
       t_status := "SUCCESS";
       t_timestamp := JNum (inject_Z (now_ms rt));
       t_reference := js_or reference JNull;
       t_mpesa_receipt := JUndef;
       t_phone_number := JUndef;
       t_result_code := JUndef;
       t_result_desc := JUndef;
       t_raw_callback := None;
       t_token := Some token |} in
  (set_transactions (fun l => l ++ [txData]) s2,
   {| p_newBalance := newBalance; p_units := units; p_token := token |}).

(** What [consumeUnits] returns. *)
Record consumed : Type := {
  newBalance : Q;
  prevBalance : Q;
  unitsConsumed : Q
}.

(** [consumeUnits]. *)
Definition consumeUnits (rt : runtime) (meterNo : string) (units : Q)
    (s : store) : store * consumed :=
  let userId := meters s !! meterNo ≫= m_user_id in
  let prevBalance := balance_or_0 (meters s !! meterNo ≫= m_balance) in
  let current := balance_or_0 (meters s !! meterNo ≫= m_balance) in
  let newBalance := Qmax 0 (round4 (current - units)) in
  let s1 := set_meter_balance meterNo newBalance s in
  let s2 :=
    match userId with
    | Some id => set_user_balance id newBalance s1
    | None => s1
    end in
  let logData :=
    {| c_consumption_id := None;
       c_user_id := userId;
       c_meter_no := Some meterNo;
       c_units_before := prevBalance;
       c_units_consumed := units;
       c_units_after := newBalance;
       c_consumption_rate := None;
       c_timestamp := JNum (inject_Z (now_ms rt));
       c_type := None |} in
  (set_unit_consumption (fun l => l ++ [logData]) s2,
   {| newBalance := newBalance; prevBalance := prevBalance;
      unitsConsumed := units |}).

End MeterService.

(** ** The system as a sequence of events *)

Module Ledger.

(** What can happen to the store: a payment initiation recorded by
    [createTransactionForMeter], a gateway callback, a simulator tick, and
    the two device-side calls of the meter service. *)
Inductive event : Type :=
| Initiation (meterNo amount : jsval) (status : string) (reference : jsval)
| Callback (callbackData : object)
| Tick
| Payment (userId : nat) (meterNo : string) (amount : Q) (reference : jsval)
| Consume (meterNo : string) (units : Q).

Definition step (rt : runtime) (e : event) (s : store) : store :=
  match e with
  | Initiation meterNo amount status reference =>
    fst (Transactions.createTransactionForMeter rt meterNo amount status reference s)
  | Callback callbackData =>
    fst (Transactions.saveCallbackTransaction rt callbackData s)
  | Tick => UnitConsumptionService.consumeUnitsForAllUsers rt s
  | Payment userId meterNo amount reference =>
    fst (MeterService.processPayment rt userId meterNo amount reference s)
  | Consume meterNo units => fst (MeterService.consumeUnits rt meterNo units s)
  end.

(** Each event comes with the runtime it ran in (its clock). *)
Definition run (evs : list (runtime * event)) (s : store) : store :=
  fold_left (fun s' re => step (fst re) (snd re) s') evs s.

End Ledger.

(** ** The specification's wording *)

Module Spec.

(** [round(x, 2)]: the nearest hundredth, a tie going up. *)
Definition round2 (x : Q) : Q := Qfloor (x * 100 + (1 # 2)) # 100.

(** "status in {SUCCESS}, case-insensitively tolerant of a legacy
    completed status string". *)
Definition counts_as_purchase (t : transaction) : bool :=
  String.eqb (toLowerCase (t_status t)) "success"
  || String.eqb (toLowerCase (t_status t)) "completed".

(** The sum of a list of quantities. *)
Definition total (l : list Q) : Q := foldr Qplus 0 l.


(** The [units_consumed] of the consumption records of a user. *)
Definition consumed (s : store) (userId : nat) : list Q :=
  map c_units_consumed
    (List.filter
       (fun c => match c_user_id c with
                 | Some u => Nat.eqb u userId
                 | None => false
                 end)
       (unit_consumption s)).

(** The persisted transactions that hold a receipt number. *)
Definition with_receipt (mpesaReceiptNumber : jsval) (s : store)
    : list transaction :=
  List.filter (fun t => equalTo mpesaReceiptNumber (t_mpesa_receipt t))
    (transactions s).

(** The consumption records of a user, oldest first. *)
Definition records_of (userId : nat) (s : store) : list consumption :=
  filter (fun c => c_user_id c = Some userId) (unit_consumption s).


End Spec.

(** ** Sample data *)

Module Sample.

(** A runtime whose [Date] knows the one date the samples use. *)
Definition rt : runtime :=
  {| now := "2024-12-28T16:05:00.000Z";
     now_ms := 1735401900000;
     Date_toISOString := fun v =>
       match v with
       | JStr s =>
         if String.eqb s "2024-12-28T16:00:00Z"
         then Some "2024-12-28T16:00:00.000Z"%string
         else if String.eqb s "2024-12-28T16:05:00.000Z"
         then Some "2024-12-28T16:05:00.000Z"%string
         else None
       | _ => None
       end;
     parseFloat_string := fun _ => None;
     UNITS_PER_KES := 0.05;
     random_token := "48151623" |}.

(** A registered user, as [POST /users] writes it. *)
Definition registered (meter_no : string) : user :=
  {| u_meter_no := Some meter_no;
     u_balance := Some 0;
     u_latest_transaction_id := None;
     u_last_payment_timestamp := None;
     u_last_payment_amount := None;
     u_last_units_purchased := None;
     u_current_units := None;
     u_last_consumption_timestamp := None;
     u_last_consumption_amount := None |}.

(** One user with meter 12345678 and an empty ledger. *)
Definition s0 : store :=
  {| users := [registered "12345678"]; transactions := [];
     unit_consumption := []; meters := ∅ |}.

(** The payload of [test-callback.js]. *)
Definition callbackPayload : object :=
  <["ResultCode" := JNum 0]>
  (<["ResultDesc" := JStr "The service request is processed successfully."]>
  (<["OriginatorCoversationID" := JStr "2faf-403f-8dd5-e16e87cf43cf20027"]>
  (<["MpesaReceiptNumber" := JStr "ABC123456789"]>
  (<["Amount" := JNum 800]>
  (<["TransactionDate" := JStr "20241228160000"]>
  (<["BillRefNumber" := JStr "12345678"]>
  (<["PhoneNumber" := JStr "254708374149"]> ∅))))))).

(** The same payload without its bill reference. *)
Definition callbackPayload_no_bill_ref : object :=
  delete "BillRefNumber" callbackPayload.

(** A receipt-less delivery for the sample meter. *)
Definition callbackPayload_no_receipt : object :=
  <["ResultCode" := JNum 0]>
  (<["Amount" := JNum 800]>
  (<["BillRefNumber" := JStr "12345678"]> ∅)).

(** The store after [POST /daraja/simulate] has recorded a payment of
    KSH 125 under the conversation id of [callbackPayload]. *)
Definition s_initiated : store :=
  fst (Transactions.createTransactionForMeter rt (JStr "12345678") (JNum 125)
         "SUCCESS" (JStr "2faf-403f-8dd5-e16e87cf43cf20027") s0).

(** The store after the first delivery of [callbackPayload] to [s0]. *)
Definition s_delivered : store :=
  fst (Transactions.saveCallbackTransaction rt callbackPayload s0).


(** The store after the meter service has recorded a payment of KSH 1.56. *)
Definition s_paid : store :=
  fst (MeterService.processPayment rt 0 "12345678" 1.56 JNull s0).


End Sample.

(** ** transactions.js: the reporting view *)

Module Report.





End Report.

(** ** index.js: the routes over the ledger *)

Module Api.




(** The answers of [POST /daraja/simulate]. *)
Inductive simulate_response : Type :=
| BadRequest                     (* 400, meter_no and amount are required *)
| GatewayFailure                 (* 500, the gateway call threw *)
| Forwarded (darajaResponse : object)
| Recorded (darajaResponse : object) (transaction_id : option nat)
    (status : string).

(** [POST /daraja/simulate], given what [simulateC2BPayment] came back
    with ([None] when it threw).  A transaction is recorded, as SUCCESS and
    under the conversation id, when the gateway answers with the response
    code ['0']; an error while recording is logged and the gateway's answer
    forwarded. *)
Definition simulate (rt : runtime) (meter_no amount : jsval)
    (daraja : option object) (s : store) : store * simulate_response :=
  if negb (truthy meter_no) || negb (truthy amount) then (s, BadRequest)
  else
    match daraja with
    | None => (s, GatewayFailure)
    | Some darajaResponse =>
      if strict_eq (get darajaResponse "ResponseCode") (JStr "0") then
        match Transactions.createTransactionForMeter rt meter_no amount "SUCCESS"
                (js_or (get darajaResponse "OriginatorCoversationID") JNull) s with
        | (s', inr transaction) =>
          (s', Recorded darajaResponse (t_transaction_id transaction) "SUCCESS")
        | (s', inl _) => (s', Forwarded darajaResponse)
        end
      else (s, Forwarded darajaResponse)
    end.

End Api.

(** ** routes/iot.js: the routes of the device *)

Module Device.





End Device.

(** ** unit-consumption.js: the life cycle of the service *)

Module Lifecycle.

(** The fields of the service object next to the rate. *)
Record service : Type := {
  isRunning : bool;
  intervalId : option nat
}.

(** The timers of the runtime: the intervals that fire, and the handle the
    next [setInterval] returns. *)
Record timers : Type := {
  active : gset nat;
  next_handle : nat
}.

(** The constructor. *)
Definition constructor : service := {| isRunning := false; intervalId := None |}.

(** [start]. *)
Definition start (st : service * timers) : service * timers :=
  if isRunning (fst st) then st
  else
    ({| isRunning := true; intervalId := Some (next_handle (snd st)) |},
     {| active := {[next_handle (snd st)]} ∪ active (snd st);
        next_handle := S (next_handle (snd st)) |}).

(** [stop]; [clearInterval] of a handle that is not there does nothing. *)
Definition stop (st : service * timers) : service * timers :=
  if negb (isRunning (fst st)) then st
  else
    ({| isRunning := false; intervalId := intervalId (fst st) |},
     {| active :=
          match intervalId (fst st) with
          | Some h => active (snd st) ∖ {[h]}
          | None => active (snd st)
          end;
        next_handle := next_handle (snd st) |}).

Inductive command : Type := Start | Stop.

Definition exec (st : service * timers) (c : command) : service * timers :=
  match c with Start => start st | Stop => stop st end.

(** Where the service and the timers of the runtime agree: a running
    service owns the one interval that fires, a stopped one none. *)
Definition in_step (st : service * timers) : Prop :=
  (if isRunning (fst st)
   then exists h, intervalId (fst st) = Some h /\ active (snd st) = {[h]}
   else active (snd st) = ∅)
  /\ forall h, h ∈ active (snd st) -> (h < next_handle (snd st))%nat.

End Lifecycle.

(** ** Invariants of the ledger *)

Module Invariant.

(** The [transaction_id] a transaction carries is its key. *)
Definition ids_are_keys (s : store) : Prop :=
  forall k t id, transactions s !! k = Some t -> t_transaction_id t = Some id ->
                 id = k.

(** No two transactions hold the same receipt number. *)
Definition receipts_unique (s : store) : Prop :=
  forall mpesaReceiptNumber, truthy mpesaReceiptNumber = true ->
    (length (Spec.with_receipt mpesaReceiptNumber s) <= 1)%nat.

(** A quantity with at most four decimals. *)
Definition four_decimals (x : Q) : Prop := exists n : Z, x == n # 10000.

(** How one event changes the transactions: not at all, by one new
    transaction at the end, or by a callback written over one of them.  The
    receipt a callback writes is one no transaction held. *)
Inductive transactions_change (s : store) (l' : list transaction) : Prop :=
| Unchanged : l' = transactions s -> transactions_change s l'
| Appended t :
    l' = transactions s ++ [t] ->
    t_transaction_id t = None
    \/ t_transaction_id t = Some (length (transactions s)) ->
    t_mpesa_receipt t = JUndef
    \/ (exists rc, t_mpesa_receipt t = js_or rc JNull
                   /\ (truthy rc = false \/ Spec.with_receipt rc s = [])) ->
    transactions_change s l'
| Overwritten id ex st rc ph code desc ts raw :
    transactions s !! id = Some ex ->
    l' = <[id := Transactions.apply_callback st rc ph code desc ts raw ex]>
           (transactions s) ->
    truthy rc = false \/ Spec.with_receipt rc s = [] ->
    transactions_change s l'.


End Invariant.

(** ** More sample data *)

Module Scenario.

(** An answer of the gateway to a simulated payment. *)
Definition darajaResponse : object :=
  <["ResponseCode" := JStr "0"]>
  (<["OriginatorCoversationID" := JStr "2faf-403f-8dd5-e16e87cf43cf20027"]>
  (<["ResponseDescription" := JStr "Accept the service request successfully."]> ∅)).

(** A payment, its callback, a tick, and the meter service at work. *)
Definition events : list (runtime * Ledger.event) :=
  [(Sample.rt,
    Ledger.Initiation (JStr "12345678") (JNum 125) "SUCCESS"
      (JStr "2faf-403f-8dd5-e16e87cf43cf20027"));
   (Sample.rt, Ledger.Callback Sample.callbackPayload);
   (Sample.rt, Ledger.Tick);
   (Sample.rt, Ledger.Payment 0 "12345678" 1.56 JNull);
   (Sample.rt, Ledger.Consume "12345678" 0.05)].


(** The service switched on twice, off, and on again. *)
Definition commands : list Lifecycle.command :=
  [Lifecycle.Start; Lifecycle.Start; Lifecycle.Stop; Lifecycle.Start].

(** A store whose meter 12345678 is linked to the sample user. *)
Definition s_linked : store :=
  {| users := users Sample.s_initiated;
     transactions := transactions Sample.s_initiated;
     unit_consumption := [];
     meters := {["12345678" := {| m_user_id := Some 0%nat; m_balance := Some 5 |}]} |}.

End Scenario.

(** * Properties *)

(** ** Rounding *)

Lemma Qfloor_bounds (x : Q) (n : Z) :
  inject_Z n <= x -> x < inject_Z (n + 1) -> Qfloor x = n.
Proof.
  intros Hl Hu.
  pose proof (Qfloor_le x) as H1. pose proof (Qlt_floor x) as H2.
  assert (inject_Z n < inject_Z (Qfloor x + 1)) as A by lra.
  assert (inject_Z (Qfloor x) < inject_Z (n + 1)) as B by lra.
  rewrite <- Zlt_Qlt in A, B. lia.
Qed.

Lemma Qmake_le (a b : Z) (d : positive) : (a <= b)%Z -> a # d <= b # d.
Proof. intros H. unfold Qle. simpl. apply Z.mul_le_mono_nonneg_r; lia. Qed.

Lemma round2_nonneg x : 0 <= x -> 0 <= Spec.round2 x.
Proof.
  intros Hx. unfold Spec.round2.
  assert (0 <= Qfloor (x * 100 + (1 # 2)))%Z as H.
  { change 0%Z with (Qfloor 0). apply Qfloor_resp_le. lra. }
  unfold Qle. cbn [Qnum Qden]. lia.
Qed.

Lemma round2_mono x y : x <= y -> Spec.round2 x <= Spec.round2 y.
Proof.
  intros Hxy. unfold Spec.round2. apply Qmake_le, Qfloor_resp_le. lra.
Qed.



Lemma toFixed2_round2 x : 0 <= x -> toFixed2 x = Spec.round2 x.
Proof.
  intros Hx. unfold toFixed2, Spec.round2.
  apply Qle_bool_iff in Hx. now rewrite Hx.
Qed.

Lemma toFixed2_nonneg x : 0 <= x -> 0 <= toFixed2 x.
Proof. intros Hx. rewrite toFixed2_round2 by exact Hx. now apply round2_nonneg. Qed.


Lemma Qmax_comp a b c d : a == c -> b == d -> Qmax a b == Qmax c d.
Proof. intros -> ->. reflexivity. Qed.

(** ** JavaScript values *)

Lemma truthy_js_or_r a b : truthy b = true -> truthy (js_or a b) = true.
Proof. intros Hb. unfold js_or. destruct (truthy a) eqn:Ha; assumption. Qed.

Lemma js_or_truthy a b : truthy a = true -> js_or a b = a.
Proof. intros H. unfold js_or. now rewrite H. Qed.

Lemma truthy_not_zero v : truthy v = true -> strict_eq v (JNum 0) = false.
Proof.
  destruct v as [| |b|q|s]; simpl; try reflexivity.
  intros H. now apply negb_true_iff in H.
Qed.

Lemma equalTo_truthy q v : truthy q = true -> equalTo q v = strict_eq q v.
Proof. destruct q; simpl; intros H; try reflexivity; discriminate. Qed.

Lemma Qeq_bool_trans_l x y z : Qeq_bool x y = true -> Qeq_bool x z = Qeq_bool y z.
Proof.
  intros H. apply Qeq_bool_iff in H.
  destruct (Qeq_bool y z) eqn:E.
  - apply Qeq_bool_iff in E. apply Qeq_bool_iff. now rewrite H.
  - apply not_true_iff_false. intros E'. apply Qeq_bool_iff in E'.
    apply not_true_iff_false in E. apply E. apply Qeq_bool_iff. now rewrite <- H.
Qed.

Lemma strict_eq_refl a : strict_eq a a = true.
Proof.
  destruct a as [| |b|q|s]; simpl; try reflexivity.
  - now destruct b.
  - now apply Qeq_bool_iff.
  - apply String.eqb_refl.
Qed.

Lemma strict_eq_trans_l a b v : strict_eq a b = true -> strict_eq a v = strict_eq b v.
Proof.
  destruct a as [| |x|x|x], b as [| |y|y|y]; simpl; try discriminate; try reflexivity.
  - intros H. apply Bool.eqb_prop in H. now subst.
  - intros H. destruct v; try reflexivity. now apply Qeq_bool_trans_l.
  - intros H. apply String.eqb_eq in H. now subst.
Qed.

Lemma strict_eq_truthy a b : strict_eq a b = true -> truthy a = truthy b.
Proof.
  destruct a as [| |x|x|x], b as [| |y|y|y]; simpl; try discriminate; try reflexivity.
  - intros H. apply Bool.eqb_prop in H. now subst.
  - intros H. f_equal. now apply Qeq_bool_trans_l.
  - intros H. apply String.eqb_eq in H. now subst.
Qed.

Lemma get_absent (o : object) k : o !! k = None -> get o k = JUndef.
Proof. intros H. unfold get. now rewrite H. Qed.

(** ** Queries and in-place updates *)

Lemma filter_existsb_false {A} (p : A -> bool) l :
  existsb p l = false -> List.filter p l = [].
Proof.
  induction l as [|x l IH]; simpl; [reflexivity|].
  intros H. apply orb_false_iff in H as [Hx Hl]. rewrite Hx. now apply IH.
Qed.

Lemma existsb_filter_nonempty {A} (p : A -> bool) l :
  List.filter p l <> [] -> existsb p l = true.
Proof.
  intros H. destruct (existsb p l) eqn:E; [reflexivity|].
  now apply filter_existsb_false in E.
Qed.

Lemma filter_alter_one {A} (p : A -> bool) (f : A -> A) l i x :
  List.filter p l = [] -> l !! i = Some x -> p (f x) = true ->
  List.filter p (alter f i l) = [f x].
Proof.
  revert i. induction l as [|y l IH]; intros i Hl Hi Hp; [discriminate|].
  simpl in Hl. destruct (p y) eqn:Hy; [discriminate|].
  destruct i as [|i]; simpl in *.
  - injection Hi as ->. rewrite Hp. now rewrite Hl.
  - rewrite Hy. now apply IH.
Qed.

Lemma filter_snoc_one {A} (p : A -> bool) l x :
  List.filter p l = [] -> p x = true -> List.filter p (l ++ [x]) = [x].
Proof. intros Hl Hp. rewrite List.filter_app, Hl. simpl. now rewrite Hp. Qed.

Lemma alter_lookup_insert {A} (f : A -> A) (l : list A) i x :
  l !! i = Some x -> alter f i l = <[i := f x]> l.
Proof.
  revert i. induction l as [|y l IH]; intros [|i] H; try discriminate; simpl in *.
  - now injection H as ->.
  - f_equal. now apply IH.
Qed.

Lemma first_child_lookup {A} (p : A -> bool) l i x :
  first_child p l = Some (i, x) -> l !! i = Some x /\ p x = true.
Proof.
  unfold first_child. intros H. apply list_find_Some in H as (Hl & Hp & _).
  split; [assumption|]. now apply Is_true_true.
Qed.

Lemma first_child_first {A} (p : A -> bool) (l : list A) i x :
  l !! i = Some x -> p x = true ->
  (forall j y, (j < i)%nat -> l !! j = Some y -> p y = false) ->
  first_child p l = Some (i, x).
Proof.
  intros Hl Hp Hfirst. unfold first_child. apply list_find_Some.
  split; [assumption|]. split; [now apply Is_true_true|].
  intros j y Hj Hlt Hy. apply Is_true_true in Hy.
  rewrite (Hfirst j y Hlt Hj) in Hy. discriminate.
Qed.

(** ** Callback reconciliation *)

Import Transactions.

(** Whatever the payload holds, the result code read from it is truthy:
    the chain of [||] ends in [1], and replaces a code of [0]. *)
Lemma resultCode_never_zero (callbackData : object) :
  strict_eq (resultCode_of callbackData) (JNum 0) = false.
Proof. apply truthy_not_zero. unfold resultCode_of. now apply truthy_js_or_r. Qed.

Lemma status_of_resultCode (callbackData : object) :
  status_of (resultCode_of callbackData) = "FAILED"%string.
Proof. unfold status_of. now rewrite resultCode_never_zero. Qed.

Lemma saveCallbackTransaction_status rt callbackData s :
  status (snd (saveCallbackTransaction rt callbackData s)) = None
  \/ status (snd (saveCallbackTransaction rt callbackData s)) = Some "FAILED"%string.
Proof.
  unfold saveCallbackTransaction. rewrite status_of_resultCode.
  repeat case_match; simpl; auto.
Qed.

(** C1, evaluated on the code.  The payload of [test-callback.js] has
    [ResultCode] 0, the code of a successful payment; the call records the
    transaction as FAILED, with result code 1.  No payload at all is ever
    recorded as SUCCESS. *)
Theorem result_code_0_recorded_as_FAILED :
  get Sample.callbackPayload "ResultCode" = JNum 0
  /\ status (snd (saveCallbackTransaction Sample.rt Sample.callbackPayload Sample.s0))
     = Some "FAILED"%string
  /\ transactions Sample.s_delivered !! 0%nat
     ≫= (fun t => Some (t_status t, t_result_code t))
     = Some ("FAILED"%string, JNum 1)
  /\ forall rt callbackData s,
       status (snd (saveCallbackTransaction rt callbackData s)) <> Some "SUCCESS"%string.
Proof.
  split; [vm_compute; reflexivity|].
  split; [vm_compute; reflexivity|].
  split; [vm_compute; reflexivity|].
  intros rt callbackData s.
  destruct (saveCallbackTransaction_status rt callbackData s) as [-> | ->]; discriminate.
Qed.

(** The first delivery of a receipt leaves exactly one transaction that
    holds it, and returns the key of that transaction. *)
Lemma saveCallbackTransaction_first_delivery rt callbackData s s1 r1 :
  saveCallbackTransaction rt callbackData s = (s1, r1) ->
  truthy (mpesaReceiptNumber_of callbackData) = true ->
  success r1 = true -> duplicate r1 = false ->
  exists t, Spec.with_receipt (mpesaReceiptNumber_of callbackData) s1 = [t]
            /\ transaction_id r1 <> None.
Proof.
  intros H Hrc Hs Hd. unfold saveCallbackTransaction in H.
  rewrite status_of_resultCode in H. simpl in H.
  destruct (truthy (billRefNumber_of callbackData)); simpl in H;
    [|injection H as <- <-; discriminate].
  rewrite Hrc in H. simpl in H.
  destruct (transactionExists s (mpesaReceiptNumber_of callbackData)) eqn:Hex;
    [injection H as <- <-; discriminate|].
  unfold transactionExists in Hex. rewrite Hrc in Hex. simpl in Hex.
  apply filter_existsb_false in Hex.
  destruct (findUserIdByMeter s (billRefNumber_of callbackData)) as [uid|];
    [|injection H as <- <-; discriminate].
  assert (equalTo (mpesaReceiptNumber_of callbackData)
            (js_or (mpesaReceiptNumber_of callbackData) JNull) = true) as Hself.
  { rewrite js_or_truthy by assumption. rewrite equalTo_truthy by assumption.
    apply strict_eq_refl. }
  unfold Spec.with_receipt.
  destruct (if truthy (conversationId_of callbackData)
            then findTransactionByReference s (conversationId_of callbackData)
            else None) as [[id ex]|] eqn:Hfind.
  - injection H as <- <-. simpl.
    assert (transactions s !! id = Some ex) as Hid.
    { destruct (truthy (conversationId_of callbackData)) eqn:Hc; [|discriminate].
      unfold findTransactionByReference in Hfind. rewrite Hc in Hfind.
      simpl in Hfind. now apply first_child_lookup in Hfind as [? _]. }
    eexists. split; [|discriminate].
    eapply filter_alter_one; [exact Hex|exact Hid|exact Hself].
  - destruct (amount_of rt callbackData) as [a|];
      [|injection H as <- <-; discriminate].
    injection H as <- <-. simpl.
    eexists. split; [|discriminate].
    apply filter_snoc_one; [exact Hex|exact Hself].
Qed.

(** C2 as stated fails: delivered twice, the sample payload gets the key 0
    on its first delivery and no key at all on the second, which is flagged
    as a duplicate. *)
Lemma duplicate_does_not_carry_first_id :
  mpesaReceiptNumber_of Sample.callbackPayload = JStr "ABC123456789"
  /\ transaction_id
       (snd (saveCallbackTransaction Sample.rt Sample.callbackPayload Sample.s0))
     = Some 0%nat
  /\ duplicate
       (snd (saveCallbackTransaction Sample.rt Sample.callbackPayload
               Sample.s_delivered)) = true
  /\ transaction_id
       (snd (saveCallbackTransaction Sample.rt Sample.callbackPayload
               Sample.s_delivered))
     <> transaction_id
          (snd (saveCallbackTransaction Sample.rt Sample.callbackPayload Sample.s0)).
Proof. vm_compute. repeat split; discriminate. Qed.

(** C2, amended.  Two calls in a row carry the same receipt number; the
    first one recorded a transaction (success, not a duplicate) and the
    second one names a bill reference.  Then exactly one persisted
    transaction holds the receipt, the second result has success and
    duplicate set, the store is the one the first call left, and the second
    result carries no transaction id ([null]), while the first one does. *)
Theorem duplicate_receipt_is_acknowledged rt1 rt2 p1 p2 s0 s1 r1 s2 r2 :
  saveCallbackTransaction rt1 p1 s0 = (s1, r1) ->
  saveCallbackTransaction rt2 p2 s1 = (s2, r2) ->
  truthy (mpesaReceiptNumber_of p1) = true ->
  strict_eq (mpesaReceiptNumber_of p1) (mpesaReceiptNumber_of p2) = true ->
  success r1 = true -> duplicate r1 = false ->
  truthy (billRefNumber_of p2) = true ->
  length (Spec.with_receipt (mpesaReceiptNumber_of p1) s2) = 1%nat
  /\ success r2 = true /\ duplicate r2 = true
  /\ s2 = s1
  /\ transaction_id r2 = None
  /\ transaction_id r1 <> None.
Proof.
  intros H1 H2 Hrc Heq Hs Hd Hb.
  destruct (saveCallbackTransaction_first_delivery _ _ _ _ _ H1 Hrc Hs Hd)
    as (t & Hone & Hid).
  assert (truthy (mpesaReceiptNumber_of p2) = true) as Hrc2
    by (rewrite <- (strict_eq_truthy _ _ Heq); exact Hrc).
  assert (transactionExists s1 (mpesaReceiptNumber_of p2) = true) as Hex.
  { unfold transactionExists. rewrite Hrc2. simpl.
    apply existsb_filter_nonempty. unfold Spec.with_receipt in Hone.
    erewrite List.filter_ext; [rewrite Hone; discriminate|].
    intros t'. simpl. rewrite !equalTo_truthy by assumption.
    symmetry. now apply strict_eq_trans_l. }
  unfold saveCallbackTransaction in H2. rewrite Hb, Hrc2, Hex in H2. simpl in H2.
  injection H2 as <- <-. simpl.
  rewrite Hone. repeat split; auto.
Qed.

Lemma duplicate_receipt_is_acknowledged_witness :
  length (Spec.with_receipt (JStr "ABC123456789") Sample.s_delivered) = 1%nat
  /\ snd (saveCallbackTransaction Sample.rt Sample.callbackPayload Sample.s_delivered)
     = {| success := true; duplicate := true; message_of := AlreadyProcessed;
          transaction_id := None; status := None |}
  /\ fst (saveCallbackTransaction Sample.rt Sample.callbackPayload Sample.s_delivered)
     = Sample.s_delivered.
Proof.
  pose proof
    (duplicate_receipt_is_acknowledged Sample.rt Sample.rt
       Sample.callbackPayload Sample.callbackPayload Sample.s0
       Sample.s_delivered
       (snd (saveCallbackTransaction Sample.rt Sample.callbackPayload Sample.s0))
       Sample.s_delivered
       (snd (saveCallbackTransaction Sample.rt Sample.callbackPayload
               Sample.s_delivered))
       ltac:(vm_compute; reflexivity) ltac:(vm_compute; reflexivity)
       ltac:(vm_compute; reflexivity) ltac:(vm_compute; reflexivity)
       ltac:(vm_compute; reflexivity) ltac:(vm_compute; reflexivity)
       ltac:(vm_compute; reflexivity)) as (H1 & _).
  split; [exact H1|]. split; vm_compute; reflexivity.
Defined.

(** C3 as stated fails: the payment recorded under the conversation id of
    the sample payload is not touched when that payload arrives without its
    bill reference.  The call stops at the check of the bill reference and
    leaves the store as it was. *)
Lemma matching_callback_without_bill_ref_updates_nothing :
  (exists t, transactions Sample.s_initiated !! 0%nat = Some t
             /\ t_reference t = conversationId_of Sample.callbackPayload_no_bill_ref
             /\ t_status t = "SUCCESS"%string /\ t_mpesa_receipt t = JUndef)
  /\ transactionExists Sample.s_initiated
       (mpesaReceiptNumber_of Sample.callbackPayload_no_bill_ref) = false
  /\ saveCallbackTransaction Sample.rt Sample.callbackPayload_no_bill_ref
       Sample.s_initiated
     = (Sample.s_initiated, failure MissingBillRef).
Proof.
  split; [eexists; split; [vm_compute; reflexivity|]; vm_compute; auto|].
  split; vm_compute; reflexivity.
Qed.

(** C3, amended.  The payload names a bill reference that resolves to a
    user, its receipt number is not persisted yet, and its conversation id
    is present; [k] is the first transaction whose reference is that
    conversation id.  Then the call overwrites, on the transaction at [k],
    the status, receipt, phone number, result code and description,
    timestamp and raw payload; every other transaction is as before and the
    number of transactions does not change. *)
Theorem matched_callback_updates_in_place rt callbackData s userId k t :
  truthy (billRefNumber_of callbackData) = true ->
  findUserIdByMeter s (billRefNumber_of callbackData) = Some userId ->
  transactionExists s (mpesaReceiptNumber_of callbackData) = false ->
  truthy (conversationId_of callbackData) = true ->
  transactions s !! k = Some t ->
  equalTo (conversationId_of callbackData) (t_reference t) = true ->
  (forall j t', (j < k)%nat -> transactions s !! j = Some t' ->
                equalTo (conversationId_of callbackData) (t_reference t') = false) ->
  let s' := fst (saveCallbackTransaction rt callbackData s) in
  transactions s' =
    <[k := apply_callback (status_of (resultCode_of callbackData))
             (mpesaReceiptNumber_of callbackData) (phoneNumber_of callbackData)
             (resultCode_of callbackData) (resultDesc_of callbackData)
             (formattedTimestamp_of rt (transactionDate_of rt callbackData))
             callbackData t]> (transactions s)
  /\ length (transactions s') = length (transactions s)
  /\ (forall j, j <> k -> transactions s' !! j = transactions s !! j)
  /\ duplicate (snd (saveCallbackTransaction rt callbackData s)) = false.
Proof.
  intros Hb Hu Hex Hc Hk Href Hfirst s'.
  assert (findTransactionByReference s (conversationId_of callbackData) = Some (k, t))
    as Hfind.
  { unfold findTransactionByReference. rewrite Hc. simpl.
    now apply first_child_first. }
  assert (transactions s' =
    <[k := apply_callback (status_of (resultCode_of callbackData))
             (mpesaReceiptNumber_of callbackData) (phoneNumber_of callbackData)
             (resultCode_of callbackData) (resultDesc_of callbackData)
             (formattedTimestamp_of rt (transactionDate_of rt callbackData))
             callbackData t]> (transactions s)
    /\ duplicate (snd (saveCallbackTransaction rt callbackData s)) = false) as [E D].
  { subst s'. unfold saveCallbackTransaction.
    rewrite Hb, Hex, andb_false_r, Hc, Hfind, Hu. simpl.
    rewrite <- (alter_lookup_insert _ _ _ _ Hk).
    destruct (String.eqb _ "SUCCESS"); [destruct (amount_of rt callbackData)|];
      simpl; split; reflexivity. }
  split; [exact E|]. split; [|split; [|exact D]].
  - rewrite E. apply length_insert.
  - intros j Hj. rewrite E. now apply list_lookup_insert_ne.
Qed.

Lemma matched_callback_updates_in_place_witness :
  length (transactions
            (fst (saveCallbackTransaction Sample.rt Sample.callbackPayload
                    Sample.s_initiated))) = 1%nat
  /\ transactions
       (fst (saveCallbackTransaction Sample.rt Sample.callbackPayload
               Sample.s_initiated)) !! 0%nat
     ≫= (fun t => Some (t_mpesa_receipt t, t_phone_number t, t_units t))
     = Some (JStr "ABC123456789", JStr "254708374149", Some 5.00).
Proof.
  assert (exists t, transactions Sample.s_initiated !! 0%nat = Some t
                    /\ equalTo (conversationId_of Sample.callbackPayload)
                         (t_reference t) = true) as (t & Ht & Href)
    by (eexists; split; vm_compute; reflexivity).
  pose proof
    (matched_callback_updates_in_place Sample.rt Sample.callbackPayload
       Sample.s_initiated 0%nat 0%nat t
       ltac:(vm_compute; reflexivity) ltac:(vm_compute; reflexivity)
       ltac:(vm_compute; reflexivity) ltac:(vm_compute; reflexivity)
       Ht Href ltac:(intros j t' Hj; lia)) as (_ & Hlen & _).
  split; [exact Hlen|]. vm_compute. reflexivity.
Defined.

Lemma no_receipt_fields (callbackData : object) :
  callbackData !! "MpesaReceiptNumber" = None ->
  callbackData !! "mpesaReceiptNumber" = None ->
  callbackData !! "TransactionID" = None ->
  mpesaReceiptNumber_of callbackData = JUndef.
Proof.
  intros H1 H2 H3. unfold mpesaReceiptNumber_of.
  now rewrite !get_absent by assumption.
Qed.

(** C9.  A payload with none of the three receipt fields is never flagged
    as a duplicate: the existence check answers false for it.  When the
    call succeeds it has either appended a new transaction (without a
    receipt, under a fresh key) or written again over the transaction its
    conversation id matches; this holds in every store, so also at each
    repeated delivery. *)
Theorem receiptless_callback_is_never_duplicate rt callbackData s :
  callbackData !! "MpesaReceiptNumber" = None ->
  callbackData !! "mpesaReceiptNumber" = None ->
  callbackData !! "TransactionID" = None ->
  let s' := fst (saveCallbackTransaction rt callbackData s) in
  let r := snd (saveCallbackTransaction rt callbackData s) in
  transactionExists s (mpesaReceiptNumber_of callbackData) = false
  /\ duplicate r = false
  /\ (success r = true ->
      (exists t, transactions s' = transactions s ++ [t]
                 /\ t_mpesa_receipt t = JNull
                 /\ t_transaction_id t = Some (length (transactions s))
                 /\ transaction_id r = Some (length (transactions s)))
      \/ (exists id t, findTransactionByReference s (conversationId_of callbackData)
                       = Some (id, t)
                       /\ transactions s' =
                          <[id := apply_callback (status_of (resultCode_of callbackData))
                                   JUndef (phoneNumber_of callbackData)
                                   (resultCode_of callbackData)
                                   (resultDesc_of callbackData)
                                   (formattedTimestamp_of rt
                                      (transactionDate_of rt callbackData))
                                   callbackData t]> (transactions s)
                       /\ transaction_id r = Some id)).
Proof.
  intros H1 H2 H3 s' r. subst s' r.
  pose proof (no_receipt_fields _ H1 H2 H3) as Hrc.
  unfold saveCallbackTransaction. rewrite Hrc. simpl.
  split; [reflexivity|].
  destruct (truthy (billRefNumber_of callbackData)); simpl;
    [|split; [reflexivity|discriminate]].
  destruct (findUserIdByMeter s (billRefNumber_of callbackData)) as [userId|]; simpl;
    [|split; [reflexivity|discriminate]].
  destruct (if truthy (conversationId_of callbackData)
            then findTransactionByReference s (conversationId_of callbackData)
            else None) as [[id t]|] eqn:Hfind.
  - assert (findTransactionByReference s (conversationId_of callbackData) = Some (id, t))
      as Hf
      by (destruct (truthy (conversationId_of callbackData));
          [exact Hfind|discriminate]).
    assert (transactions s !! id = Some t) as Hid.
    { unfold findTransactionByReference in Hf.
      destruct (negb _); [discriminate|]. now apply first_child_lookup in Hf as [? _]. }
    destruct (String.eqb _ "SUCCESS"); [destruct (amount_of rt callbackData)|];
      simpl; (split; [reflexivity|]); try discriminate;
      intros _; right; exists id, t; (split; [exact Hf|]);
      (split; [|reflexivity]); now apply alter_lookup_insert.
  - destruct (amount_of rt callbackData) as [a|]; simpl;
      [|split; [reflexivity|discriminate]].
    destruct (String.eqb _ "SUCCESS"); simpl; (split; [reflexivity|]);
      intros _; left; eexists; repeat split; reflexivity.
Qed.

Lemma receiptless_callback_is_never_duplicate_witness :
  let once := saveCallbackTransaction Sample.rt Sample.callbackPayload_no_receipt
                Sample.s0 in
  let twice := saveCallbackTransaction Sample.rt Sample.callbackPayload_no_receipt
                 (fst once) in
  duplicate (snd once) = false /\ duplicate (snd twice) = false
  /\ transaction_id (snd once) = Some 0%nat
  /\ transaction_id (snd twice) = Some 1%nat
  /\ length (transactions (fst twice)) = 2%nat.
Proof.
  intros once twice.
  pose proof
    (receiptless_callback_is_never_duplicate Sample.rt
       Sample.callbackPayload_no_receipt Sample.s0
       ltac:(vm_compute; reflexivity) ltac:(vm_compute; reflexivity)
       ltac:(vm_compute; reflexivity)) as (_ & D1 & _).
  pose proof
    (receiptless_callback_is_never_duplicate Sample.rt
       Sample.callbackPayload_no_receipt (fst once)
       ltac:(vm_compute; reflexivity) ltac:(vm_compute; reflexivity)
       ltac:(vm_compute; reflexivity)) as (_ & D2 & _).
  split; [exact D1|]. split; [exact D2|].
  vm_compute. repeat split; reflexivity.
Defined.

(** ** Unit conversion *)



(** ** Balance *)






Lemma calculateAvailableUnits_nonneg s userId :
  0 <= calculateAvailableUnits s userId.
Proof. apply toFixed2_nonneg, Q.le_max_l. Qed.





(** C7.  After every step of every sequence of events (payment
    initiations, callbacks, simulator ticks, and the calls of the meter
    service), from any store, the available units of every user are not
    negative. *)
Theorem balance_never_negative (evs : list (runtime * Ledger.event)) s userId n :
  0 <= calculateAvailableUnits (Ledger.run (take n evs) s) userId.
Proof. apply calculateAvailableUnits_nonneg. Qed.

(** ** The simulator tick *)



Lemma Qle_bool_false x y : Qle_bool x y = false <-> y < x.
Proof.
  split.
  - intros H. apply Qnot_le_lt. intros L. apply Qle_bool_iff in L. congruence.
  - intros H. apply not_true_iff_false. intros L. apply Qle_bool_iff in L. lra.
Qed.


Section Tick.

Variable rt : runtime.

Local Abbreviation available := UnitConsumptionService.calculateAvailableUnits.
Local Abbreviation rate := UnitConsumptionService.consumptionRate.
Local Abbreviation step_for := (UnitConsumptionService.consumeUnitsForUser rt).
Local Abbreviation loop_over := (UnitConsumptionService.consumeUnitsForEach rt).
Local Abbreviation tick := (UnitConsumptionService.consumeUnitsForAllUsers rt).

(** The available units of a user depend on the transactions and on the
    user's own consumption records only. *)
Lemma available_frame s1 s2 userId :
  transactions s1 = transactions s2 ->
  Spec.records_of userId s1 = Spec.records_of userId s2 ->
  available s1 userId = available s2 userId.
Proof.
  intros Ht Hr.
  unfold UnitConsumptionService.calculateAvailableUnits,
    Transactions.totalPurchasedUnits, Transactions.totalConsumedUnits.
  unfold Spec.records_of in Hr. now rewrite Ht, Hr.
Qed.

Lemma consumeUnitsForUser_skip userId s :
  available s userId <= 0 -> step_for userId s = s.
Proof.
  intros H. unfold UnitConsumptionService.consumeUnitsForUser.
  apply Qle_bool_iff in H. now rewrite H.
Qed.

Lemma consumeUnitsForUser_record userId s :
  0 < available s userId ->
  step_for userId s
  = UnitConsumptionService.recordUnitConsumption rt userId
      (Qmin rate (available s userId))
      (available s userId)
      (Qmax 0 (available s userId - Qmin rate (available s userId)))
      s.
Proof.
  intros H. unfold UnitConsumptionService.consumeUnitsForUser.
  now rewrite (proj2 (Qle_bool_false _ _) H).
Qed.

(** The step for one user leaves the transactions, the meters, and the
    records and the entry of every other user as they are. *)
Lemma consumeUnitsForUser_frame v s :
  transactions (step_for v s) = transactions s
  /\ meters (step_for v s) = meters s
  /\ forall userId, userId <> v ->
       Spec.records_of userId (step_for v s) = Spec.records_of userId s
       /\ users (step_for v s) !! userId = users s !! userId.
Proof.
  unfold UnitConsumptionService.consumeUnitsForUser.
  destruct (Qle_bool _ 0); [now repeat split|].
  split; [reflexivity|]. split; [reflexivity|].
  intros userId Hne. split.
  - unfold Spec.records_of. simpl. rewrite filter_app, filter_cons, filter_nil.
    simpl. rewrite decide_False by congruence. apply app_nil_r.
  - simpl. now apply list_lookup_alter_ne.
Qed.

Lemma consumeUnitsForEach_frame ids s :
  transactions (loop_over ids s) = transactions s
  /\ meters (loop_over ids s) = meters s
  /\ forall userId, userId ∉ ids ->
       Spec.records_of userId (loop_over ids s) = Spec.records_of userId s
       /\ users (loop_over ids s) !! userId = users s !! userId.
Proof.
  revert s. induction ids as [|v ids IH]; intros s; [now repeat split|].
  simpl. destruct (IH (step_for v s)) as (Ht & Hm & Hf).
  destruct (consumeUnitsForUser_frame v s) as (Ht' & Hm' & Hf').
  split; [now rewrite Ht|]. split; [now rewrite Hm|].
  intros userId Hni. apply not_elem_of_cons in Hni as [Hne Hni].
  destruct (Hf userId Hni) as [R U]. destruct (Hf' userId Hne) as [R' U'].
  split; [now rewrite R|now rewrite U].
Qed.

(** In a tick the step for a user runs once, in a store that agrees with
    the one at the start of the tick on everything the step reads, and
    nothing that runs after it touches what it wrote for the user. *)
Lemma consumeUnitsForAllUsers_at s userId u :
  users s !! userId = Some u ->
  exists s_mid,
    transactions s_mid = transactions s
    /\ Spec.records_of userId s_mid = Spec.records_of userId s
    /\ users s_mid !! userId = Some u
    /\ Spec.records_of userId (tick s)
       = Spec.records_of userId (step_for userId s_mid)
    /\ users (tick s) !! userId = users (step_for userId s_mid) !! userId.
Proof.
  intros Hu. apply lookup_lt_Some in Hu as Hlt.
  assert (userId ∈ seq 0 (length (users s))) as Hin by (apply elem_of_seq; lia).
  pose proof (NoDup_seq 0 (length (users s))) as Hnd.
  apply list_elem_of_split in Hin as (l1 & l2 & Hsplit).
  rewrite Hsplit in Hnd. apply NoDup_app in Hnd as (_ & Hl1 & Hnd2).
  apply NoDup_cons in Hnd2 as [Hl2 _].
  assert (userId ∉ l1) as Hn1.
  { intros Hin1. apply (Hl1 _ Hin1). left. }
  unfold UnitConsumptionService.consumeUnitsForAllUsers. rewrite Hsplit.
  unfold UnitConsumptionService.consumeUnitsForEach.
  rewrite fold_left_app. simpl.
  fold (loop_over l1 s). fold (loop_over l2 (step_for userId (loop_over l1 s))).
  destruct (consumeUnitsForEach_frame l1 s) as (Ht1 & _ & Hf1).
  destruct (Hf1 userId Hn1) as [R1 U1].
  destruct (consumeUnitsForEach_frame l2 (step_for userId (loop_over l1 s)))
    as (_ & _ & Hf2).
  destruct (Hf2 userId Hl2) as [R2 U2].
  exists (loop_over l1 s).
  split; [exact Ht1|]. split; [exact R1|]. split; [now rewrite U1|].
  split; [exact R2|exact U2].
Qed.


End Tick.



(** ** The device path *)




(** ** A consequence for the balance *)

(** What the lost result code costs: the payment of KSH 125 recorded at
    initiation gives the user 5.00 units; when the gateway then confirms
    that payment with [ResultCode] 0, the callback matches the transaction,
    writes FAILED on it, and the user is left with no units. *)
Example confirmed_payment_loses_its_units :
  calculateAvailableUnits Sample.s_initiated 0 == 5
  /\ calculateAvailableUnits
       (fst (saveCallbackTransaction Sample.rt Sample.callbackPayload
               Sample.s_initiated)) 0 == 0.
Proof. split; vm_compute; reflexivity. Qed.

(** * Further properties *)

(** ** Looking a user up *)

Lemma first_child_None {A} (p : A -> bool) (l : list A) :
  first_child p l = None <-> forall j x, l !! j = Some x -> p x = false.
Proof.
  unfold first_child. rewrite list_find_None, Forall_lookup. split.
  - intros H j x Hj. specialize (H j x Hj). destruct (p x); [|reflexivity].
    now destruct H.
  - intros H j x Hj Hp. rewrite (H j x Hj) in Hp. exact Hp.
Qed.

Lemma first_child_Some {A} (p : A -> bool) (l : list A) i x :
  first_child p l = Some (i, x)
  <-> l !! i = Some x /\ p x = true
      /\ forall j y, (j < i)%nat -> l !! j = Some y -> p y = false.
Proof.
  split.
  - unfold first_child. intros H. apply list_find_Some in H as (Hl & Hp & Hf).
    split; [assumption|]. split; [now apply Is_true_true|].
    intros j y Hlt Hj. specialize (Hf j y Hj Hlt). destruct (p y); [|reflexivity].
    now destruct Hf.
  - intros (Hl & Hp & Hf). now apply first_child_first.
Qed.

Lemma meter_matches m u :
  equalTo (JStr m) (from_option JStr JUndef (u_meter_no u)) = true
  <-> u_meter_no u = Some m.
Proof.
  destruct (u_meter_no u) as [m'|]; simpl.
  - rewrite String.eqb_eq. split; congruence.
  - split; discriminate.
Qed.

Lemma meter_matches_false m u :
  equalTo (JStr m) (from_option JStr JUndef (u_meter_no u)) = false
  <-> u_meter_no u <> Some m.
Proof. rewrite <- meter_matches. symmetry. apply not_true_iff_false. Qed.

(** X1.  [findUserIdByMeter] answers the first user, in key order, whose
    meter number is the string asked for, and nothing exactly when no user
    has it.  A meter number given as a number or a boolean matches no
    user. *)
Theorem findUserIdByMeter_first_match s :
  (forall m userId,
     findUserIdByMeter s (JStr m) = Some userId
     <-> (exists u, users s !! userId = Some u /\ u_meter_no u = Some m)
         /\ forall j u', (j < userId)%nat -> users s !! j = Some u' ->
                         u_meter_no u' <> Some m)
  /\ (forall m,
        findUserIdByMeter s (JStr m) = None
        <-> forall j u, users s !! j = Some u -> u_meter_no u <> Some m)
  /\ (forall q, findUserIdByMeter s (JNum q) = None)
  /\ (forall b, findUserIdByMeter s (JBool b) = None).
Proof.
  unfold findUserIdByMeter. split; [|split; [|split]].
  - intros m userId. rewrite fmap_Some. split.
    + intros ([i u] & Hf & ->). apply first_child_Some in Hf as (Hl & Hp & Hfirst).
      simpl. split.
      * exists u. split; [exact Hl|]. now apply meter_matches.
      * intros j u' Hlt Hj. apply meter_matches_false. now apply (Hfirst j u').
    + intros ((u & Hl & Hm) & Hfirst). exists (userId, u). split; [|reflexivity].
      apply first_child_Some. split; [exact Hl|]. split; [now apply meter_matches|].
      intros j y Hlt Hj. apply meter_matches_false. now apply (Hfirst j y).
  - intros m. rewrite fmap_None, first_child_None. split.
    + intros H j u Hj. apply meter_matches_false. now apply (H j u).
    + intros H j u Hj. apply meter_matches_false. now apply (H j u).
  - intros q. rewrite fmap_None, first_child_None. intros j u _.
    simpl. now destruct (u_meter_no u).
  - intros b. rewrite fmap_None, first_child_None. intros j u _.
    destruct b; simpl; now destruct (u_meter_no u).
Qed.

(** ** Recording a payment *)

Lemma findUserIdByMeter_lookup s meterNo userId :
  findUserIdByMeter s meterNo = Some userId -> exists u, users s !! userId = Some u.
Proof.
  unfold findUserIdByMeter. rewrite fmap_Some. intros ([i u] & Hf & ->).
  apply first_child_lookup in Hf as [Hl _]. now exists u.
Qed.

(** X2.  When [createTransactionForMeter] throws, nothing was written: the
    store is as before.  It throws for a meter no user has, and for an
    amount that is not a number although the meter is known. *)
Theorem createTransactionForMeter_error_writes_nothing
    rt meterNo amount status reference s e :
  snd (createTransactionForMeter rt meterNo amount status reference s) = inl e ->
  fst (createTransactionForMeter rt meterNo amount status reference s) = s
  /\ ((e = NoUserFound meterNo /\ findUserIdByMeter s meterNo = None)
      \/ (e = WriteRejected /\ parseFloat rt amount = None
          /\ findUserIdByMeter s meterNo <> None)).
Proof.
  unfold createTransactionForMeter, calculateUnits.
  destruct (findUserIdByMeter s meterNo) as [userId|]; simpl.
  - destruct (parseFloat rt amount) as [a|]; simpl.
    + destruct (String.eqb status "SUCCESS"); discriminate.
    + intros [= <-]. split; [reflexivity|]. right. repeat split. discriminate.
  - intros [= <-]. split; [reflexivity|]. left. now split.
Qed.


(** X4.  After a payment recorded as SUCCESS the balance persisted on the
    user is the one [calculateAvailableUnits] computes in the resulting
    store, and the user points to the new transaction and its units; the
    meter number and the cached current units stay, and no other user is
    changed. *)
Theorem createTransactionForMeter_refreshes_balance
    rt meterNo amount reference s t :
  snd (createTransactionForMeter rt meterNo amount "SUCCESS" reference s) = inr t ->
  let s' := fst (createTransactionForMeter rt meterNo amount "SUCCESS" reference s) in
  (exists u u', users s !! t_user_id t = Some u
                /\ users s' !! t_user_id t = Some u'
                /\ u_balance u' = Some (calculateAvailableUnits s' (t_user_id t))
                /\ u_latest_transaction_id u' = Some (length (transactions s))
                /\ u_last_units_purchased u' = t_units t
                /\ u_last_payment_amount u' = Some amount
                /\ u_meter_no u' = u_meter_no u
                /\ u_current_units u' = u_current_units u)
  /\ forall j, j <> t_user_id t -> users s' !! j = users s !! j.
Proof.
  unfold createTransactionForMeter, calculateUnits.
  destruct (findUserIdByMeter s meterNo) as [userId|] eqn:Hfind; simpl; [|discriminate].
  destruct (parseFloat rt amount) as [a|]; simpl; [|discriminate].
  intros [= <-]. simpl.
  destruct (findUserIdByMeter_lookup _ _ _ Hfind) as [u Hu].
  split.
  - exists u. eexists. split; [exact Hu|]. split.
    + rewrite !list_lookup_alter_eq, Hu. reflexivity.
    + repeat split.
  - intros j Hj. rewrite !list_lookup_alter_ne by congruence. reflexivity.
Qed.


Lemma transactions_of_create rt meterNo amount status reference s t :
  snd (createTransactionForMeter rt meterNo amount status reference s) = inr t ->
  transactions (fst (createTransactionForMeter rt meterNo amount status reference s))
  = transactions s ++ [t]
  /\ unit_consumption
       (fst (createTransactionForMeter rt meterNo amount status reference s))
     = unit_consumption s
  /\ t_status t = status
  /\ t_reference t = match reference with JUndef => JNull | r => r end.
Proof.
  unfold createTransactionForMeter, calculateUnits.
  destruct (findUserIdByMeter s meterNo) as [userId|]; simpl; [|discriminate].
  destruct (parseFloat rt amount) as [a|]; simpl; [|discriminate].
  destruct (String.eqb status "SUCCESS"); intros [= <-]; simpl; repeat split.
Qed.


(** X6.  A transaction recorded under a reference is the one
    [findTransactionByReference] answers for that reference afterwards,
    with its key, unless an older transaction has the same reference: then
    the older one is still the answer. *)
Theorem recorded_reference_is_found rt meterNo amount status reference s t :
  snd (createTransactionForMeter rt meterNo amount status reference s) = inr t ->
  truthy reference = true ->
  let s' := fst (createTransactionForMeter rt meterNo amount status reference s) in
  (findTransactionByReference s reference = None ->
   findTransactionByReference s' reference = Some (length (transactions s), t))
  /\ (forall older, findTransactionByReference s reference = Some older ->
                    findTransactionByReference s' reference = Some older).
Proof.
  intros Hr Htr s'.
  destruct (transactions_of_create _ _ _ _ _ _ _ Hr) as (Ht & _ & _ & Href).
  fold s' in Ht.
  assert (t_reference t = reference) as Href'
    by (rewrite Href; destruct reference; try reflexivity; discriminate).
  unfold findTransactionByReference, first_child. rewrite Htr, Ht. simpl. split.
  - intros Hnone. rewrite list_find_app_r by exact Hnone. simpl.
    rewrite decide_True.
    + simpl. reflexivity.
    + apply Is_true_true. rewrite Href', equalTo_truthy by exact Htr.
      apply strict_eq_refl.
  - intros [i x] Hsome. now apply list_find_app_l.
Qed.

(** ** Invariants of the ledger *)

Import Invariant.

Lemma strict_eq_sym a b : strict_eq a b = strict_eq b a.
Proof.
  destruct a as [| |x|x|x], b as [| |y|y|y]; simpl; try reflexivity.
  - now destruct x, y.
  - destruct (Qeq_bool x y) eqn:E, (Qeq_bool y x) eqn:E'; try reflexivity.
    + apply Qeq_bool_iff in E. apply not_true_iff_false in E'. exfalso. apply E'.
      apply Qeq_bool_iff. now symmetry.
    + apply Qeq_bool_iff in E'. apply not_true_iff_false in E. exfalso. apply E.
      apply Qeq_bool_iff. now symmetry.
  - apply String.eqb_sym.
Qed.

Lemma truthy_not_absent q : truthy q = true ->
  equalTo q JUndef = false /\ equalTo q JNull = false.
Proof. destruct q; simpl; try discriminate; auto. Qed.

Lemma createTransactionForMeter_cases rt meterNo amount status reference s :
  (exists e, createTransactionForMeter rt meterNo amount status reference s
             = (s, inl e))
  \/ (exists t, snd (createTransactionForMeter rt meterNo amount status reference s)
                = inr t
                /\ transactions
                     (fst (createTransactionForMeter rt meterNo amount status
                             reference s)) = transactions s ++ [t]
                /\ t_transaction_id t = Some (length (transactions s))
                /\ t_mpesa_receipt t = JUndef).
Proof.
  unfold createTransactionForMeter, calculateUnits.
  destruct (findUserIdByMeter s meterNo) as [userId|]; simpl; [|left; eauto].
  destruct (parseFloat rt amount) as [a|]; simpl; [|left; eauto].
  right. destruct (String.eqb status "SUCCESS"); eexists; repeat split.
Qed.

Lemma callback_changes rt callbackData s :
  transactions_change s
    (transactions (fst (saveCallbackTransaction rt callbackData s))).
Proof.
  unfold saveCallbackTransaction.
  destruct (truthy (billRefNumber_of callbackData)); simpl; [|now apply Unchanged].
  assert (truthy (mpesaReceiptNumber_of callbackData)
          && transactionExists s (mpesaReceiptNumber_of callbackData) = false ->
          truthy (mpesaReceiptNumber_of callbackData) = false
          \/ Spec.with_receipt (mpesaReceiptNumber_of callbackData) s = []) as Hrc.
  { unfold transactionExists.
    destruct (truthy (mpesaReceiptNumber_of callbackData)); simpl; [|now left].
    intros H. right. now apply filter_existsb_false. }
  destruct (truthy (mpesaReceiptNumber_of callbackData)
            && transactionExists s (mpesaReceiptNumber_of callbackData));
    [now apply Unchanged|].
  specialize (Hrc eq_refl).
  destruct (findUserIdByMeter s (billRefNumber_of callbackData)) as [userId|];
    [|now apply Unchanged].
  destruct (if truthy (conversationId_of callbackData)
            then findTransactionByReference s (conversationId_of callbackData)
            else None) as [[id ex]|] eqn:Hfind.
  - assert (transactions s !! id = Some ex) as Hid.
    { destruct (truthy (conversationId_of callbackData)) eqn:Hc; [|discriminate].
      unfold findTransactionByReference in Hfind. rewrite Hc in Hfind.
      now apply first_child_lookup in Hfind as [? _]. }
    eapply (Overwritten _ _ id ex); [exact Hid| |exact Hrc].
    rewrite <- (alter_lookup_insert _ _ _ _ Hid).
    destruct (String.eqb _ "SUCCESS"); [destruct (amount_of rt callbackData)|];
      reflexivity.
  - destruct (amount_of rt callbackData) as [a|]; [|now apply Unchanged].
    eapply Appended.
    + destruct (String.eqb _ "SUCCESS"); reflexivity.
    + right. reflexivity.
    + right. eexists. split; [reflexivity|exact Hrc].
Qed.

Lemma step_changes rt e s :
  transactions_change s (transactions (Ledger.step rt e s)).
Proof.
  destruct e as [meterNo amount status reference|callbackData| |userId meterNo amount
                 reference|meterNo units]; simpl.
  - destruct (createTransactionForMeter_cases rt meterNo amount status reference s)
      as [[e ->]|(t & _ & Ht & Hid & Hmr)].
    + now apply Unchanged.
    + eapply Appended; [exact Ht|now right|now left].
  - apply callback_changes.
  - apply Unchanged.
    apply (consumeUnitsForEach_frame rt (seq 0 (length (users s))) s).
  - eapply Appended; [reflexivity|now left|now left].
  - apply Unchanged. unfold MeterService.consumeUnits.
    now destruct (meters s !! meterNo ≫= m_user_id).
Qed.

(** Induction over a run, from its first event on. *)
Lemma run_invariant (P : store -> Prop) :
  (forall rt e s, P s -> P (Ledger.step rt e s)) ->
  forall evs s, P s -> P (Ledger.run evs s).
Proof.
  intros Hstep evs. unfold Ledger.run.
  induction evs as [|[rt e] evs IH]; intros s Hs; simpl; [exact Hs|].
  apply IH, Hstep, Hs.
Qed.

Lemma ids_are_keys_step rt e s : ids_are_keys s -> ids_are_keys (Ledger.step rt e s).
Proof.
  intros Hinv k t id Hk Hid.
  destruct (step_changes rt e s) as [E|t0 E Ht0 _|i ex st rc ph code desc ts raw Hi E _];
    rewrite E in Hk.
  - now apply (Hinv k t).
  - apply lookup_app_Some in Hk as [Hk|[Hge Hk]].
    + now apply (Hinv k t).
    + apply list_lookup_singleton_Some in Hk as [Hz ->].
      destruct Ht0 as [Hn|Hs]; [congruence|]. rewrite Hs in Hid.
      injection Hid as <-. lia.
  - destruct (decide (i = k)) as [->|Hne].
    + rewrite list_lookup_insert_eq in Hk by (now apply lookup_lt_Some in Hi).
      injection Hk as <-. simpl in Hid. now apply (Hinv k ex).
    + rewrite list_lookup_insert_ne in Hk by exact Hne. now apply (Hinv k t).
Qed.

(** X7.  In a store where every transaction that carries a
    [transaction_id] carries its own key, this is still so after every
    sequence of events. *)
Theorem transaction_ids_are_keys evs s :
  ids_are_keys s -> ids_are_keys (Ledger.run evs s).
Proof. apply run_invariant. intros rt e s'. apply ids_are_keys_step. Qed.

Lemma filter_insert_le {A} (p : A -> bool) (l : list A) i x y :
  l !! i = Some x -> p y = false ->
  (length (List.filter p (<[i:=y]> l)) <= length (List.filter p l))%nat.
Proof.
  revert i. induction l as [|z l IH]; intros [|i] Hi Hy; try discriminate; simpl in *.
  - rewrite Hy. destruct (p z); simpl; lia.
  - specialize (IH i Hi Hy). destruct (p z); simpl; lia.
Qed.

Lemma filter_insert_one {A} (p : A -> bool) (l : list A) i x y :
  List.filter p l = [] -> l !! i = Some x -> p y = true ->
  List.filter p (<[i:=y]> l) = [y].
Proof.
  intros Hl Hi Hy. rewrite <- (alter_lookup_insert (fun _ => y) l i x Hi).
  now apply (filter_alter_one p (fun _ => y) l i x).
Qed.

Lemma with_receipt_strict_eq rc rc' s :
  truthy rc = true -> truthy rc' = true -> strict_eq rc' rc = true ->
  Spec.with_receipt rc' s = Spec.with_receipt rc s.
Proof.
  intros H H' E. unfold Spec.with_receipt. apply List.filter_ext. intros t.
  rewrite !equalTo_truthy by assumption. now apply strict_eq_trans_l.
Qed.

(** What a new receipt value adds to the transactions holding [rc']. *)
Lemma written_receipt rc rc' s :
  truthy rc' = true ->
  truthy rc = false \/ Spec.with_receipt rc s = [] ->
  equalTo rc' (js_or rc JNull) = false
  \/ (equalTo rc' (js_or rc JNull) = true /\ Spec.with_receipt rc' s = []).
Proof.
  intros H' Hrc. destruct (truthy rc) eqn:Htr.
  - rewrite js_or_truthy by exact Htr.
    destruct (equalTo rc' rc) eqn:E; [right|now left]. split; [reflexivity|].
    rewrite equalTo_truthy in E by exact H'.
    rewrite (with_receipt_strict_eq rc rc' s Htr H' E).
    destruct Hrc as [?|?]; [discriminate|assumption].
  - left. unfold js_or. rewrite Htr. now apply truthy_not_absent.
Qed.

Lemma receipts_unique_step rt e s :
  receipts_unique s -> receipts_unique (Ledger.step rt e s).
Proof.
  intros Hinv rc' H'. specialize (Hinv rc' H'). unfold Spec.with_receipt in *.
  destruct (step_changes rt e s)
    as [E|t E _ Hmr|i ex st rc ph code desc ts raw Hi E Hrc]; rewrite E.
  - exact Hinv.
  - rewrite List.filter_app, length_app. simpl.
    destruct Hmr as [->|(rc & -> & Hrc)].
    + destruct (truthy_not_absent _ H') as [-> _]. simpl. lia.
    + destruct (written_receipt rc rc' s H' Hrc) as [->|[-> Hnone]]; simpl; [lia|].
      unfold Spec.with_receipt in Hnone. rewrite Hnone. simpl. lia.
  - destruct (written_receipt rc rc' s H' Hrc) as [Hf|[Ht Hnone]].
    + etransitivity; [|exact Hinv]. now apply (filter_insert_le _ _ i ex).
    + unfold Spec.with_receipt in Hnone.
      erewrite filter_insert_one; [simpl; lia|exact Hnone|exact Hi|exact Ht].
Qed.

(** X8.  In a store where no receipt number is held by two transactions,
    none is after any sequence of events. *)
Theorem receipt_numbers_stay_unique evs s :
  receipts_unique s -> receipts_unique (Ledger.run evs s).
Proof. apply run_invariant. intros rt e s'. apply receipts_unique_step. Qed.







(** ** The drain of the simulator *)

Section Ticks.

Variable rt : runtime.

Local Abbreviation available := UnitConsumptionService.calculateAvailableUnits.
Local Abbreviation rate := UnitConsumptionService.consumptionRate.
Local Abbreviation tick := (UnitConsumptionService.consumeUnitsForAllUsers rt).

(** What a tick does to the records of a registered user. *)
Lemma tick_records_of s userId u :
  users s !! userId = Some u ->
  transactions (tick s) = transactions s
  /\ is_Some (users (tick s) !! userId)
  /\ (available s userId <= 0 ->
      Spec.records_of userId (tick s) = Spec.records_of userId s)
  /\ (0 < available s userId ->
      exists r, Spec.records_of userId (tick s) = Spec.records_of userId s ++ [r]
                /\ c_units_consumed r = toFixed2 (Qmin rate (available s userId))).
Proof.
  intros Hu.
  destruct (consumeUnitsForAllUsers_at rt s userId u Hu)
    as (s_mid & Ht & Hr & Hum & HR & HU).
  pose proof (available_frame s_mid s userId Ht Hr) as Hav.
  split; [apply (consumeUnitsForEach_frame rt (seq 0 (length (users s))) s)|].
  split; [|split].
  - rewrite HU. unfold UnitConsumptionService.consumeUnitsForUser.
    destruct (Qle_bool _ 0); simpl; [now rewrite Hum|].
    rewrite list_lookup_alter_eq, Hum. simpl. eauto.
  - intros Hle. rewrite HR, consumeUnitsForUser_skip by (rewrite Hav; exact Hle).
    exact Hr.
  - intros Hpos. rewrite HR, consumeUnitsForUser_record by (rewrite Hav; exact Hpos).
    rewrite Hav. eexists. split.
    + unfold Spec.records_of. simpl. rewrite filter_app, filter_cons, filter_nil.
      simpl. rewrite decide_True by reflexivity.
      fold (Spec.records_of userId s_mid). now rewrite Hr.
    + reflexivity.
Qed.

(** The available units after a tick, from those before it. *)
Lemma tick_available s userId u :
  users s !! userId = Some u ->
  0 < available s userId ->
  available (tick s) userId
  == Qmax 0 (available s userId - toFixed2 (Qmin rate (available s userId))).
Proof.
  intros Hu Hpos.
  destruct (tick_records_of s userId u Hu) as (Ht & _ & _ & Hrec).
  destruct (Hrec Hpos) as (r & Hr & Hc).
  unfold UnitConsumptionService.calculateAvailableUnits at 1.
  unfold totalPurchasedUnits, totalConsumedUnits.
  fold (Spec.records_of userId (tick s)). rewrite Ht, Hr, fold_left_app. simpl.
  rewrite Hc.
  fold (Spec.records_of userId s).
  change (fold_left (fun total c => total + c_units_consumed c)
            (Spec.records_of userId s) 0) with (totalConsumedUnits s userId).
  change (fold_left
            (fun total t =>
               if counts_as_purchase t then total + default 0 (t_units t) else total)
            (filter (fun t => t_user_id t = userId) (transactions s)) 0)
    with (totalPurchasedUnits s userId).
  assert (available s userId
          == totalPurchasedUnits s userId - totalConsumedUnits s userId) as E.
  { unfold UnitConsumptionService.calculateAvailableUnits in *.
    apply Q.max_r. apply Qlt_le_weak.
    destruct (Q.max_spec 0 (totalPurchasedUnits s userId - totalConsumedUnits s userId))
      as [[? E]|[? E]]; rewrite E in Hpos; [assumption|lra]. }
  apply Qmax_comp; [reflexivity|]. lra.
Qed.

Lemma available_nonneg s userId : 0 <= available s userId.
Proof. apply Q.le_max_l. Qed.

(** X10.  A tick never raises the available units of anyone, registered or
    not, whether computed by the service or by [calculateAvailableUnits]. *)
Theorem tick_never_raises_a_balance s userId :
  available (tick s) userId <= available s userId
  /\ calculateAvailableUnits (tick s) userId <= calculateAvailableUnits s userId.
Proof.
  assert (available (tick s) userId <= available s userId) as H.
  { destruct (users s !! userId) as [u|] eqn:Hu.
    - destruct (tick_records_of s userId u Hu) as (Ht & _ & Hskip & _).
      destruct (Qlt_le_dec 0 (available s userId)) as [Hpos|Hle].
      + rewrite (tick_available s userId u Hu Hpos).
        assert (0 <= toFixed2 (Qmin rate (available s userId))) as Hx.
        { apply toFixed2_nonneg. apply Q.min_glb; [now vm_compute|lra]. }
        apply Q.max_lub; lra.
      + rewrite (available_frame (tick s) s userId Ht (Hskip Hle)). lra.
    - apply lookup_ge_None in Hu.
      destruct (consumeUnitsForEach_frame rt (seq 0 (length (users s))) s)
        as (Ht & _ & Hf).
      destruct (Hf userId) as [Hr _]; [rewrite elem_of_seq; lia|].
      rewrite (available_frame (tick s) s userId Ht Hr). lra. }
  split; [exact H|].
  change (toFixed2 (available (tick s) userId) <= toFixed2 (available s userId)).
  rewrite !toFixed2_round2 by apply available_nonneg. now apply round2_mono.
Qed.


End Ticks.



(** ** Callbacks, again *)

(** X12.  [saveCallbackTransaction] writes to the transactions only: users,
    consumption records and meters are as before (no callback gets the
    status SUCCESS, so the update of the user never runs), and the number
    of transactions grows by one at most.  When the result says failure or
    duplicate the whole store is as before and the result names no
    transaction. *)
Theorem callback_writes_transactions_only rt callbackData s :
  let s' := fst (saveCallbackTransaction rt callbackData s) in
  let r := snd (saveCallbackTransaction rt callbackData s) in
  users s' = users s
  /\ unit_consumption s' = unit_consumption s
  /\ meters s' = meters s
  /\ (length (transactions s) <= length (transactions s') <= S (length (transactions s)))%nat
  /\ (success r = false \/ duplicate r = true ->
      s' = s /\ transaction_id r = None).
Proof.
  unfold saveCallbackTransaction. rewrite status_of_resultCode. simpl.
  destruct (truthy (billRefNumber_of callbackData)); simpl;
    [|repeat split; auto; lia].
  destruct (truthy (mpesaReceiptNumber_of callbackData)
            && transactionExists s (mpesaReceiptNumber_of callbackData)); simpl;
    [repeat split; auto; lia|].
  destruct (findUserIdByMeter s (billRefNumber_of callbackData)) as [userId|]; simpl;
    [|repeat split; auto; lia].
  destruct (if truthy (conversationId_of callbackData)
            then findTransactionByReference s (conversationId_of callbackData)
            else None) as [[id ex]|]; simpl.
  - repeat split; try (rewrite length_alter; lia);
      match goal with H : _ \/ _ |- _ => destruct H; discriminate end.
  - destruct (amount_of rt callbackData) as [a|]; simpl.
    + repeat split; try (rewrite length_app; simpl; lia);
        match goal with H : _ \/ _ |- _ => destruct H; discriminate end.
    + repeat split; auto; lia.
Qed.

(** ** The reporting view *)




(** ** The balance route *)






(** ** The simulate route *)

Lemma strict_eq_JStr v x : strict_eq v (JStr x) = true <-> v = JStr x.
Proof.
  destruct v; simpl; try (split; discriminate).
  rewrite String.eqb_eq. split; congruence.
Qed.

(** X15.  [POST /daraja/simulate] records a transaction only for a truthy
    meter number and amount and a gateway answer whose response code is the
    string ['0']: then it appends one SUCCESS transaction under the
    conversation id and answers with its key.  Every other answer leaves
    the store untouched; a bad request means that the meter number or the
    amount is missing, and an amount of 0 counts as missing. *)
Theorem simulate_records_on_response_code_0 rt meter_no amount daraja s :
  match snd (Api.simulate rt meter_no amount daraja s) with
  | Api.Recorded darajaResponse id st =>
    daraja = Some darajaResponse
    /\ truthy meter_no = true /\ truthy amount = true
    /\ get darajaResponse "ResponseCode" = JStr "0"
    /\ st = "SUCCESS"%string
    /\ id = Some (length (transactions s))
    /\ exists t, transactions (fst (Api.simulate rt meter_no amount daraja s))
                 = transactions s ++ [t]
                 /\ t_status t = "SUCCESS"%string
                 /\ t_reference t
                    = js_or (get darajaResponse "OriginatorCoversationID") JNull
  | Api.BadRequest =>
    fst (Api.simulate rt meter_no amount daraja s) = s
    /\ (truthy meter_no = false \/ truthy amount = false)
  | _ => fst (Api.simulate rt meter_no amount daraja s) = s
  end.
Proof.
  unfold Api.simulate.
  destruct (truthy meter_no); simpl; [|now split; [|left]].
  destruct (truthy amount); simpl; [|now split; [|right]].
  destruct daraja as [darajaResponse|]; [|reflexivity].
  destruct (strict_eq (get darajaResponse "ResponseCode") (JStr "0")) eqn:Hcode;
    [|reflexivity].
  apply strict_eq_JStr in Hcode.
  destruct (createTransactionForMeter_cases rt meter_no amount "SUCCESS"
              (js_or (get darajaResponse "OriginatorCoversationID") JNull) s)
    as [[e He]|(t & Hr & Ht & Hid & _)].
  - rewrite He. reflexivity.
  - destruct (transactions_of_create _ _ _ _ _ _ _ Hr) as (_ & _ & Hs & Href).
    destruct (createTransactionForMeter rt meter_no amount "SUCCESS"
                (js_or (get darajaResponse "OriginatorCoversationID") JNull) s)
      as [s' [e|t']]; simpl in *; [discriminate|].
    injection Hr as ->. repeat split; auto. exists t. repeat split; auto.
    rewrite Href. unfold js_or. destruct (truthy _) eqn:E; [|reflexivity].
    destruct (get darajaResponse "OriginatorCoversationID"); try reflexivity.
    discriminate.
Qed.


(** ** Rounding errors *)

Lemma round2_error x : x - (1 # 200) < Spec.round2 x /\ Spec.round2 x <= x + (1 # 200).
Proof.
  unfold Spec.round2.
  pose proof (Qfloor_le (x * 100 + (1 # 2))) as H1.
  pose proof (Qlt_floor (x * 100 + (1 # 2))) as H2.
  rewrite inject_Z_plus in H2.
  assert (Qfloor (x * 100 + (1 # 2)) # 100
          == inject_Z (Qfloor (x * 100 + (1 # 2))) / 100) as ->.
  { unfold Qeq, Qdiv, Qmult, Qinv, inject_Z. simpl. lia. }
  split.
  - apply Qlt_shift_div_l; [reflexivity|]. change (inject_Z 1) with 1 in H2. lra.
  - apply Qle_shift_div_r; [reflexivity|]. lra.
Qed.

Lemma toFixed2_error x : x - (1 # 200) <= toFixed2 x <= x + (1 # 200).
Proof.
  destruct (Qlt_le_dec x 0) as [Hneg|Hpos].
  - assert (toFixed2 x = - Spec.round2 (- x)) as ->.
    { unfold toFixed2, Spec.round2.
      now rewrite (proj2 (Qle_bool_false 0 x) Hneg). }
    destruct (round2_error (- x)) as [H1 H2]. lra.
  - rewrite toFixed2_round2 by exact Hpos.
    destruct (round2_error x) as [H1 H2]. lra.
Qed.


Lemma round4_comp x y : x == y -> MeterService.round4 x = MeterService.round4 y.
Proof. intros H. unfold MeterService.round4, Math_round. now rewrite H. Qed.

Lemma round4_exact (n : Z) : MeterService.round4 (n # 10000) == n # 10000.
Proof.
  unfold MeterService.round4, Math_round.
  assert (Qfloor ((n # 10000) * 10000 + (1 # 2)) = n) as ->.
  { apply Qfloor_bounds.
    - unfold Qle, Qmult, Qplus, inject_Z. cbn [Qnum Qden]. lia.
    - unfold Qlt, Qmult, Qplus, inject_Z. cbn [Qnum Qden]. lia. }
  unfold Qeq, Qdiv, Qmult, Qinv, inject_Z. simpl. lia.
Qed.

Lemma round4_four_decimals x : four_decimals (MeterService.round4 x).
Proof.
  exists (Math_round (x * 10000)). unfold MeterService.round4.
  unfold Qeq, Qdiv, Qmult, Qinv, inject_Z. simpl. lia.
Qed.

Lemma round4_of_four_decimals y : four_decimals y -> MeterService.round4 y == y.
Proof. intros [n Hn]. rewrite (round4_comp _ _ Hn), round4_exact. now symmetry. Qed.



(** ** The meter service *)



Lemma four_decimals_plus x y : four_decimals x -> four_decimals y -> four_decimals (x + y).
Proof.
  intros [n Hn] [m Hm]. exists (n + m)%Z. rewrite Hn, Hm.
  unfold Qeq, Qplus. cbn [Qnum Qden]. lia.
Qed.


(** X19.  On a meter whose balance is not negative and has at most four
    decimals, consuming exactly the units a payment bought brings the
    balance back to what it was before the payment. *)
Theorem consuming_a_purchase_restores_the_meter
    rt rt' userId meterNo amount reference s :
  let previous := MeterService.balance_or_0 (meters s !! meterNo ≫= m_balance) in
  four_decimals previous -> 0 <= previous ->
  let paid := MeterService.processPayment rt userId meterNo amount reference s in
  let s'' := fst (MeterService.consumeUnits rt' meterNo
                    (MeterService.p_units (snd paid)) (fst paid)) in
  exists b, meters s'' !! meterNo ≫= m_balance = Some b /\ b == previous.
Proof.
  intros previous H4 Hpos paid s''. subst s'' paid.
  unfold MeterService.consumeUnits, MeterService.processPayment. simpl.
  rewrite !lookup_insert_eq. simpl. fold previous.
  set (units := MeterService.round4 (amount * UNITS_PER_KES rt)).
  eexists. split.
  { destruct (meters s !! meterNo ≫= m_user_id); simpl;
      rewrite lookup_insert_eq; reflexivity. }
  assert (MeterService.round4 (previous + units) == previous + units) as E1
    by (apply round4_of_four_decimals, four_decimals_plus;
        [exact H4|apply round4_four_decimals]).
  assert (MeterService.round4 (previous + units) - units == previous) as E2
    by (rewrite E1; ring).
  rewrite (round4_comp _ _ E2), (round4_of_four_decimals _ H4).
  now apply Q.max_r.
Qed.

(** X20.  [consumeUnits] never touches the transactions.  On a meter
    without a linked user it changes no user, and the record it logs counts
    for nobody: the available units of every user are as before.  On a
    meter linked to an existing user it copies the new meter balance to the
    user and logs the requested units against that user. *)
Theorem consumeUnits_reaches_only_a_linked_user rt meterNo units s :
  let s' := fst (MeterService.consumeUnits rt meterNo units s) in
  transactions s' = transactions s
  /\ (meters s !! meterNo ≫= m_user_id = None ->
      users s' = users s
      /\ forall userId, Spec.records_of userId s' = Spec.records_of userId s
                        /\ calculateAvailableUnits s' userId
                           = calculateAvailableUnits s userId)
  /\ (forall userId u, meters s !! meterNo ≫= m_user_id = Some userId ->
        users s !! userId = Some u ->
        users s' !! userId ≫= u_balance
        = meters s' !! meterNo ≫= m_balance
        /\ exists logData,
             Spec.records_of userId s' = Spec.records_of userId s ++ [logData]
             /\ c_units_consumed logData = units).
Proof.
  intros s'. subst s'. unfold MeterService.consumeUnits.
  destruct (meters s !! meterNo ≫= m_user_id) as [linked|]; simpl.
  - split; [reflexivity|]. split; [discriminate|].
    intros userId u [= ->] Hu. split.
    + now rewrite list_lookup_alter_eq, Hu, lookup_insert_eq.
    + eexists. split.
      * unfold Spec.records_of. simpl. rewrite filter_app, filter_cons, filter_nil.
        simpl. now rewrite decide_True by reflexivity.
      * reflexivity.
  - split; [reflexivity|]. split; [|discriminate].
    intros _. split; [reflexivity|]. intros userId.
    assert (Spec.records_of userId
              (set_unit_consumption
                 (fun l => l ++
                    [{| c_consumption_id := None; c_user_id := None;
                        c_meter_no := Some meterNo;
                        c_units_consumed := units;
                        c_units_before :=
                          MeterService.balance_or_0 (meters s !! meterNo ≫= m_balance);
                        c_units_after :=
                          Qmax 0 (MeterService.round4
                                    (MeterService.balance_or_0
                                       (meters s !! meterNo ≫= m_balance) - units));
                        c_consumption_rate := None;
                        c_timestamp := JNum (inject_Z (now_ms rt));
                        c_type := None |}])
                 (MeterService.set_meter_balance meterNo
                    (Qmax 0 (MeterService.round4
                               (MeterService.balance_or_0
                                  (meters s !! meterNo ≫= m_balance) - units))) s))
            = Spec.records_of userId s) as E.
    { unfold Spec.records_of. simpl. rewrite filter_app, filter_cons, filter_nil.
      simpl. try rewrite decide_False by discriminate. apply app_nil_r. }
    split; [exact E|].
    unfold calculateAvailableUnits, totalPurchasedUnits, totalConsumedUnits.
    unfold Spec.records_of in E. simpl in *. now rewrite E.
Qed.

(** ** The life cycle of the service *)

Import Lifecycle.

Lemma in_step_exec st c : in_step st -> in_step (exec st c).
Proof.
  destruct st as [[running h0] [act next]]. unfold in_step. simpl.
  intros [Hrun Hlt]. destruct c; simpl.
  - unfold start. simpl. destruct running; simpl; [now split|].
    rewrite Hrun. split.
    + exists next. split; [reflexivity|]. apply (right_id_L ∅ (∪)).
    + intros h Hh. rewrite (right_id_L ∅ (∪)) in Hh.
      apply elem_of_singleton in Hh as ->. lia.
  - unfold stop. simpl. destruct running; simpl; [|now split].
    destruct Hrun as (h & -> & ->). split.
    + apply difference_diag_L.
    + intros h' Hh. rewrite difference_diag_L in Hh. now apply elem_of_empty in Hh.
Qed.

Lemma in_step_run cmds st : in_step st -> in_step (fold_left exec cmds st).
Proof.
  revert st. induction cmds as [|c cmds IH]; intros st H; simpl; [exact H|].
  now apply IH, in_step_exec.
Qed.

(** X21.  Whatever sequence of [start] and [stop] is called on a new
    service, at most one interval fires, and one fires exactly when
    [isRunning] holds: the one [intervalId] names.  A second [start] or a
    second [stop] changes nothing, and after [stop] no interval fires. *)
Theorem service_runs_at_most_one_interval (cmds : list command) (next : nat) :
  let st := fold_left exec cmds (constructor, {| active := ∅; next_handle := next |}) in
  (size (active (snd st)) <= 1)%nat
  /\ (isRunning (fst st) = true <-> size (active (snd st)) = 1%nat)
  /\ (isRunning (fst st) = true ->
      exists h, intervalId (fst st) = Some h /\ active (snd st) = {[h]})
  /\ start (start st) = start st
  /\ stop (stop st) = stop st
  /\ isRunning (fst (stop (start st))) = false
  /\ active (snd (stop st)) = ∅.
Proof.
  intros st.
  assert (in_step st) as [Hrun Hlt].
  { apply in_step_run. split; [reflexivity|].
    intros h Hh. now apply elem_of_empty in Hh. }
  destruct st as [[running h0] [act nx]]. simpl in *.
  destruct running; simpl in *.
  - destruct Hrun as (h & -> & ->). rewrite size_singleton.
    split; [lia|]. split; [tauto|]. split; [eauto|].
    unfold start, stop. simpl. repeat split. apply difference_diag_L.
  - rewrite Hrun, size_empty. split; [lia|]. split; [split; [discriminate|lia]|].
    split; [discriminate|]. unfold start, stop. simpl. repeat split.
Qed.

(** ** The routes of the device *)









(** ** Instances *)

Lemma createTransactionForMeter_error_writes_nothing_witness :
  snd (createTransactionForMeter Sample.rt (JStr "00000000") (JNum 125) "SUCCESS"
         JNull Sample.s0) = inl (NoUserFound (JStr "00000000"))
  /\ fst (createTransactionForMeter Sample.rt (JStr "00000000") (JNum 125) "SUCCESS"
            JNull Sample.s0) = Sample.s0.
Proof.
  assert (snd (createTransactionForMeter Sample.rt (JStr "00000000") (JNum 125)
                 "SUCCESS" JNull Sample.s0) = inl (NoUserFound (JStr "00000000")))
    as H by (vm_compute; reflexivity).
  split; [exact H|].
  apply (createTransactionForMeter_error_writes_nothing _ _ _ _ _ _ _ H).
Defined.


Lemma createTransactionForMeter_refreshes_balance_witness :
  exists t,
    snd (createTransactionForMeter Sample.rt (JStr "12345678") (JNum 110) "SUCCESS"
           JNull Sample.s0) = inr t
    /\ exists u',
         users (fst (createTransactionForMeter Sample.rt (JStr "12345678") (JNum 110)
                       "SUCCESS" JNull Sample.s0)) !! t_user_id t = Some u'
         /\ u_balance u'
            = Some (calculateAvailableUnits
                      (fst (createTransactionForMeter Sample.rt (JStr "12345678")
                              (JNum 110) "SUCCESS" JNull Sample.s0)) (t_user_id t)).
Proof.
  eexists. split; [vm_compute; reflexivity|].
  match goal with
  | |- exists u', users (fst (createTransactionForMeter ?rt ?m ?a _ ?r ?s)) !! t_user_id ?t
                  = Some u' /\ _ =>
    destruct (createTransactionForMeter_refreshes_balance rt m a r s t
                ltac:(vm_compute; reflexivity))
      as ((u & u' & _ & Hu' & Hb & _) & _)
  end.
  exists u'. split; [exact Hu'|exact Hb].
Defined.


Lemma recorded_reference_is_found_witness :
  exists t,
    snd (createTransactionForMeter Sample.rt (JStr "12345678") (JNum 125) "SUCCESS"
           (JStr "2faf-403f-8dd5-e16e87cf43cf20027") Sample.s0) = inr t
    /\ findTransactionByReference Sample.s_initiated
         (JStr "2faf-403f-8dd5-e16e87cf43cf20027") = Some (0%nat, t).
Proof.
  eexists. split; [vm_compute; reflexivity|].
  match goal with
  | |- findTransactionByReference _ ?ref = Some (_, ?t) =>
    destruct (recorded_reference_is_found Sample.rt (JStr "12345678") (JNum 125)
                "SUCCESS" ref Sample.s0 t
                ltac:(vm_compute; reflexivity) ltac:(vm_compute; reflexivity))
      as (H & _)
  end.
  apply H. vm_compute. reflexivity.
Defined.

Lemma transaction_ids_are_keys_witness :
  ids_are_keys Sample.s0 /\ ids_are_keys (Ledger.run Scenario.events Sample.s0).
Proof.
  assert (ids_are_keys Sample.s0) as H0
    by (intros k t id Hk; simpl in Hk; rewrite lookup_nil in Hk; discriminate).
  split; [exact H0|]. now apply (transaction_ids_are_keys Scenario.events Sample.s0).
Defined.

Lemma receipt_numbers_stay_unique_witness :
  receipts_unique Sample.s0 /\ receipts_unique (Ledger.run Scenario.events Sample.s0).
Proof.
  assert (receipts_unique Sample.s0) as H0 by (intros rc _; simpl; lia).
  split; [exact H0|]. now apply (receipt_numbers_stay_unique Scenario.events Sample.s0).
Defined.


Lemma callback_writes_transactions_only_witness :
  success (snd (saveCallbackTransaction Sample.rt Sample.callbackPayload_no_bill_ref
                  Sample.s_initiated)) = false
  /\ fst (saveCallbackTransaction Sample.rt Sample.callbackPayload_no_bill_ref
            Sample.s_initiated) = Sample.s_initiated.
Proof.
  assert (success (snd (saveCallbackTransaction Sample.rt
                          Sample.callbackPayload_no_bill_ref Sample.s_initiated))
          = false) as H by (vm_compute; reflexivity).
  split; [exact H|].
  destruct (callback_writes_transactions_only Sample.rt
              Sample.callbackPayload_no_bill_ref Sample.s_initiated)
    as (_ & _ & _ & _ & Hsame).
  apply Hsame. now left.
Defined.




Lemma consuming_a_purchase_restores_the_meter_witness :
  exists b,
    meters
      (fst (MeterService.consumeUnits Sample.rt "12345678"
              (MeterService.p_units
                 (snd (MeterService.processPayment Sample.rt 0 "12345678" 1.56 JNull
                         Sample.s0)))
              (fst (MeterService.processPayment Sample.rt 0 "12345678" 1.56 JNull
                      Sample.s0)))) !! "12345678" ≫= m_balance = Some b
    /\ b == 0.
Proof.
  apply (consuming_a_purchase_restores_the_meter Sample.rt Sample.rt 0%nat "12345678"
           1.56 JNull Sample.s0).
  - exists 0%Z. vm_compute. reflexivity.
  - vm_compute. discriminate.
Defined.


Lemma consumeUnits_reaches_only_a_linked_user_witness :
  users (fst (MeterService.consumeUnits Sample.rt "12345678" 0.05 Sample.s_paid))
  = users Sample.s_paid
  /\ exists logData,
       Spec.records_of 0
         (fst (MeterService.consumeUnits Sample.rt "12345678" 0.05 Scenario.s_linked))
       = [logData] /\ c_units_consumed logData = 0.05.
Proof.
  destruct (consumeUnits_reaches_only_a_linked_user Sample.rt "12345678" 0.05
              Sample.s_paid) as (_ & Hun & _).
  destruct (Hun ltac:(vm_compute; reflexivity)) as (Hu & _).
  assert (exists u, users Scenario.s_linked !! 0%nat = Some u) as [u Hl]
    by (eexists; vm_compute; reflexivity).
  destruct (consumeUnits_reaches_only_a_linked_user Sample.rt "12345678" 0.05
              Scenario.s_linked) as (_ & _ & Hlinked).
  destruct (Hlinked 0%nat u ltac:(vm_compute; reflexivity) Hl) as (_ & logData & Hr & Hc).
  split; [exact Hu|]. exists logData. split; [exact Hr|exact Hc].
Defined.


Lemma service_runs_at_most_one_interval_witness :
  isRunning
    (fst (fold_left exec Scenario.commands
            (constructor, {| active := ∅; next_handle := 0 |}))) = true
  /\ exists h,
       intervalId
         (fst (fold_left exec Scenario.commands
                 (constructor, {| active := ∅; next_handle := 0 |}))) = Some h
       /\ active
            (snd (fold_left exec Scenario.commands
                    (constructor, {| active := ∅; next_handle := 0 |}))) = {[h]}.
Proof.
  assert (isRunning
            (fst (fold_left exec Scenario.commands
                    (constructor, {| active := ∅; next_handle := 0 |}))) = true)
    as H by reflexivity.
  split; [exact H|].
  destruct (service_runs_at_most_one_interval Scenario.commands 0)
    as (_ & _ & Hone & _).
  exact (Hone H).
Defined.

Lemma findUserIdByMeter_first_match_witness :
  findUserIdByMeter Sample.s0 (JStr "12345678") = Some 0%nat
  /\ findUserIdByMeter Sample.s0 (JStr "00000000") = None.
Proof.
  destruct (findUserIdByMeter_first_match Sample.s0) as (Hs & Hn & _).
  split.
  - apply Hs. split.
    + eexists. split; [vm_compute; reflexivity|reflexivity].
    + intros j u' Hj. lia.
  - apply Hn. intros j u Hj. destruct j as [|j]; simpl in Hj.
    + injection Hj as <-. discriminate.
    + rewrite lookup_nil in Hj. discriminate.
Defined.


